(** * simple_assistant.py: a shallow embedding and its checked properties

    The program is a command-line front end with three operations (chat,
    analyze-image, generate-image).  The development below embeds the
    Python values the response traversal inspects, the standard-library
    base64 decoder it calls, the extraction loop of [generate_image], and
    the command dispatch of [main] over an explicit world (environment
    variables, file system, clock, remote service) with a trace of the
    effects performed. *)

From Stdlib Require Import ZArith NArith List String Ascii Bool Lia.
From Stdlib.Strings Require Import Byte.
From stdpp Require Import base option gmap strings.

Import ListNotations.
Local Open Scope string_scope.
Local Open Scope list_scope.
#[local] Set Warnings "-register-all".

(** ** Python values *)

(** The values a response can be made of.  An object is a plain attribute
    bag in the manner of [types.SimpleNamespace]: it is truthy, it is not
    iterable, and it carries exactly the attributes stored in it. *)
Inductive pyval : Type :=
  | PNone
  | PBool (b : bool)
  | PInt (n : Z)
  | PStr (s : string)
  | PBytes (bs : list byte)
  | PByteArray (bs : list byte)
  | PList (xs : list pyval)
  | PDict (kvs : list (string * pyval))
  | PObj (attrs : gmap string pyval).

(** Exceptions, by class.  [binascii.Error] derives from [ValueError];
    everything below derives from [Exception] except [KeyboardInterrupt],
    which derives from [BaseException] only. *)
Inductive exc_class : Type :=
  | TypeError
  | ValueError
  | AttributeError
  | BinasciiError
  | OSError
  | ServiceError
  | KeyboardInterrupt.

Record exn : Type := mk_exn { exn_class : exc_class; exn_msg : string }.

(** [isinstance(e, Exception)]. *)
Definition is_Exception (e : exn) : bool :=
  match exn_class e with
  | KeyboardInterrupt => false
  | _ => true
  end.

(** The result of evaluating an expression that may raise. *)
Inductive outcome (A : Type) : Type :=
  | Ok (a : A)
  | Raise (e : exn).
Arguments Ok {A} a.
Arguments Raise {A} e.

(** [bool(v)]. *)
Definition truthy (v : pyval) : bool :=
  match v with
  | PNone => false
  | PBool b => b
  | PInt n => negb (n =? 0)%Z
  | PStr s => negb (String.eqb s "")
  | PBytes bs | PByteArray bs => negb (Nat.eqb (length bs) 0)
  | PList xs => negb (Nat.eqb (length xs) 0)
  | PDict kvs => negb (Nat.eqb (length kvs) 0)
  | PObj _ => true
  end.

(** [a or b]: the first operand when it is truthy, the second otherwise. *)
Definition py_or (a b : pyval) : pyval := if truthy a then a else b.

(** [getattr(v, name, default)].  Only objects carry the attributes the
    program asks for (candidates, content, parts, inline_data, inlineData,
    mime_type, data, image, text); no built-in value has one of them. *)
Definition getattr (v : pyval) (name : string) (default : pyval) : pyval :=
  match v with
  | PObj attrs => match attrs !! name with Some x => x | None => default end
  | _ => default
  end.

(** [v.name], raising [AttributeError] when the attribute is missing. *)
Definition attr (v : pyval) (name : string) : outcome pyval :=
  match v with
  | PObj attrs =>
      match attrs !! name with
      | Some x => Ok x
      | None => Raise (mk_exn AttributeError name)
      end
  | _ => Raise (mk_exn AttributeError name)
  end.

(** [iter(v)] run to exhaustion: lists give their elements, strings their
    characters, bytes their integers, dicts their keys; None, booleans,
    integers and plain objects are not iterable. *)
Definition py_iter (v : pyval) : outcome (list pyval) :=
  match v with
  | PList xs => Ok xs
  | PStr s => Ok (map (fun c => PStr (String c EmptyString)) (list_ascii_of_string s))
  | PBytes bs | PByteArray bs => Ok (map (fun b => PInt (Z.of_N (Byte.to_N b))) bs)
  | PDict kvs => Ok (map (fun kv => PStr (fst kv)) kvs)
  | _ => Raise (mk_exn TypeError "object is not iterable")
  end.

(** [str(v).startswith("image/")].  Only a [str] can render with that
    prefix: None renders as [None], booleans as [True]/[False], integers as
    decimal numerals, bytes as [b'..'], lists as [[..]], dicts as [{..}],
    and an attribute bag as [namespace(..)]. *)
Definition str_startswith_image (v : pyval) : bool :=
  match v with
  | PStr s => String.prefix "image/" s
  | _ => false
  end.

(** ** The standard library's base64 codec

    [generate_image] calls [base64.b64decode(data)] on a [str].  The
    decoder below follows CPython's [binascii.a2b_base64] in its default,
    non-strict mode, which is where [b64decode] ends once the text has been
    encoded to ASCII; [b64encode] is the encoder of RFC 4648, the reference
    for what a base64-encoded text of a byte string is. *)
Module Base64.

Local Open Scope N_scope.

Definition alphabet : string :=
  "ABCDEFGHIJKLMNOPQRSTUVWXYZabcdefghijklmnopqrstuvwxyz0123456789+/".

Definition pad_char : ascii := "="%char.

(** [table_b2a_base64[n]]. *)
Definition b2a (n : N) : ascii :=
  match String.get (N.to_nat n) alphabet with
  | Some c => c
  | None => pad_char
  end.

(** [table_a2b_base64[c]], [None] standing for the entries the C table
    fills with a value of 64 or more. *)
Definition a2b (c : ascii) : option N :=
  let n := N_of_ascii c in
  if (65 <=? n) && (n <=? 90) then Some (n - 65)
  else if (97 <=? n) && (n <=? 122) then Some (n - 97 + 26)
  else if (48 <=? n) && (n <=? 57) then Some (n - 48 + 52)
  else if n =? 43 then Some 62
  else if n =? 47 then Some 63
  else None.

(** A value stored through an [unsigned char *]: kept modulo 256. *)
Definition store_uchar (n : N) : byte :=
  match Byte.of_N (n mod 256) with
  | Some b => b
  | None => x00
  end.

(** The four 6-bit groups of three bytes [x], [y], [z]. *)
Definition s0 (x : N) : N := N.shiftr x 2.
Definition s1 (x y : N) : N := N.lor (N.shiftl (N.land x 3) 4) (N.shiftr y 4).
Definition s2 (y z : N) : N := N.lor (N.shiftl (N.land y 15) 2) (N.shiftr z 6).
Definition s3 (z : N) : N := N.land z 63.

Fixpoint encode_chars (bs : list byte) : list ascii :=
  match bs with
  | [] => []
  | [a] =>
      let x := Byte.to_N a in
      [b2a (s0 x); b2a (N.shiftl (N.land x 3) 4); pad_char; pad_char]
  | [a; b] =>
      let x := Byte.to_N a in
      let y := Byte.to_N b in
      [b2a (s0 x); b2a (s1 x y); b2a (N.shiftl (N.land y 15) 2); pad_char]
  | a :: b :: c :: rest =>
      let x := Byte.to_N a in
      let y := Byte.to_N b in
      let z := Byte.to_N c in
      b2a (s0 x) :: b2a (s1 x y) :: b2a (s2 y z) :: b2a (s3 z)
      :: encode_chars rest
  end.

Definition b64encode (bs : list byte) : string :=
  string_of_list_ascii (encode_chars bs).

(** The decoder's loop variables. *)
Record a2b_state : Type := mk_state {
  quad_pos : N;
  leftchar : N;
  pads : N;
  bin_data : list byte
}.

Inductive step_result : Type :=
  | Continue (st : a2b_state)
  | Done (st : a2b_state).

(** The [switch (quad_pos)] of the loop body, on a 6-bit value. *)
Definition push_sextet (st : a2b_state) (v : N) : a2b_state :=
  match quad_pos st with
  | 0 => mk_state 1 v 0 (bin_data st)
  | 1 =>
      mk_state 2 (N.land v 15) 0
        (bin_data st ++ [store_uchar (N.lor (N.shiftl (leftchar st) 2) (N.shiftr v 4))])
  | 2 =>
      mk_state 3 (N.land v 3) 0
        (bin_data st ++ [store_uchar (N.lor (N.shiftl (leftchar st) 4) (N.shiftr v 2))])
  | _ =>
      mk_state 0 0 0
        (bin_data st ++ [store_uchar (N.lor (N.shiftl (leftchar st) 6) v)])
  end.

(** One iteration of the loop over the input characters: a pad character
    ends the parse once it completes a quad and is skipped otherwise, a
    character outside the alphabet is skipped, a character of the alphabet
    feeds the quad. *)
Definition a2b_step (st : a2b_state) (c : ascii) : step_result :=
  if Ascii.eqb c pad_char then
    if 2 <=? quad_pos st then
      let pads' := pads st + 1 in
      if 4 <=? quad_pos st + pads'
      then Done (mk_state (quad_pos st) (leftchar st) pads' (bin_data st))
      else Continue (mk_state (quad_pos st) (leftchar st) pads' (bin_data st))
    else Continue st
  else
    match a2b c with
    | None => Continue st
    | Some v => Continue (push_sextet st v)
    end.

Fixpoint a2b_loop (cs : list ascii) (st : a2b_state) : outcome (list byte) :=
  match cs with
  | [] =>
      if quad_pos st =? 0 then Ok (bin_data st)
      else if quad_pos st =? 1
      then Raise (mk_exn BinasciiError
             "Invalid base64-encoded string: number of data characters cannot be 1 more than a multiple of 4")
      else Raise (mk_exn BinasciiError "Incorrect padding")
  | c :: rest =>
      match a2b_step st c with
      | Done st' => Ok (bin_data st')
      | Continue st' => a2b_loop rest st'
      end
  end.

Definition a2b_base64 (cs : list ascii) : outcome (list byte) :=
  a2b_loop cs (mk_state 0 0 0 []).

(** [base64.b64decode(s)] for a [str]: the text must be ASCII. *)
Definition b64decode (s : string) : outcome (list byte) :=
  let cs := list_ascii_of_string s in
  if forallb (fun c => N_of_ascii c <? 128) cs
  then a2b_base64 cs
  else Raise (mk_exn ValueError "string argument should contain only ASCII characters").

End Base64.

(** ** The response payload extractor (generate_image, lines 70-93) *)

(** The body of the loop over the candidates: a candidate whose content
    and parts are both truthy has its parts appended to the list. *)
Definition collect_candidate (cand : pyval) (parts : list pyval)
  : outcome (list pyval) :=
  let content := getattr cand "content" PNone in
  if truthy content && truthy (getattr content "parts" PNone) then
    match attr content "parts" with
    | Ok ps =>
        match py_iter ps with
        | Ok xs => Ok (parts ++ xs)
        | Raise e => Raise e
        end
    | Raise e => Raise e
    end
  else Ok parts.

Fixpoint collect_parts (cands : list pyval) (parts : list pyval)
  : outcome (list pyval) :=
  match cands with
  | [] => Ok parts
  | cand :: rest =>
      match collect_candidate cand parts with
      | Ok parts' => collect_parts rest parts'
      | Raise e => Raise e
      end
  end.

(** [getattr(p, "inline_data", None) or getattr(p, "inlineData", None)]. *)
Definition inline_field (p : pyval) : pyval :=
  py_or (getattr p "inline_data" PNone) (getattr p "inlineData" PNone).

(** [d and str(getattr(d, "mime_type", "")).startswith("image/")]. *)
Definition is_image_field (d : pyval) : bool :=
  truthy d && str_startswith_image (getattr d "mime_type" (PStr "")).

(** The body of the loop over the parts: what one part appends to
    [images], or the exception it raises. *)
Definition part_payload (p : pyval) : outcome (list pyval) :=
  let d := inline_field p in
  if is_image_field d then
    match getattr d "data" PNone with
    | PBytes bs | PByteArray bs => Ok [PBytes bs]
    | PStr s =>
        match Base64.b64decode s with
        | Ok bs => Ok [PBytes bs]
        | Raise e => Raise e
        end
    | _ => Ok []
    end
  else Ok [].

(** The loop over the parts.  [images] is mutated in place, so what was
    appended before an exception stays appended. *)
Fixpoint scan_parts (parts : list pyval) (images : list pyval)
  : list pyval * option exn :=
  match parts with
  | [] => (images, None)
  | p :: rest =>
      match part_payload p with
      | Ok imgs => scan_parts rest (images ++ imgs)
      | Raise e => (images, Some e)
      end
  end.

(** The first loop of the [try] block: the parts of all the candidates of
    [getattr(resp, "candidates", []) or []]. *)
Definition gather (resp : pyval) : outcome (list pyval) :=
  match py_iter (py_or (getattr resp "candidates" (PList [])) (PList [])) with
  | Ok cands => collect_parts cands []
  | Raise e => Raise e
  end.

(** The body of the [try] block: the state of [images] when the block is
    left, and the exception that left it, if any. *)
Definition try_body (resp : pyval) : list pyval * option exn :=
  match gather resp with
  | Ok parts => scan_parts parts []
  | Raise e => ([], Some e)
  end.

(** [try: ... except Exception: pass]: an exception of a class deriving
    from [Exception] is dropped, any other propagates. *)
Definition traverse (resp : pyval) : outcome (list pyval) :=
  match try_body resp with
  | (images, None) => Ok images
  | (images, Some e) => if is_Exception e then Ok images else Raise e
  end.

(** Lines 90-93: the top-level [image] attribute, read only when [images]
    is still empty.  The second component tells whether line 91 ran, that
    is, whether the attribute was read. *)
Definition fallback (resp : pyval) (images : list pyval) : list pyval * bool :=
  match images with
  | [] =>
      let data := getattr resp "image" PNone in
      (if truthy data then [data] else [], true)
  | _ => (images, false)
  end.

(** The whole extraction phase: the value of [images] at line 95. *)
Definition extract_images (resp : pyval) : outcome (list pyval) :=
  match traverse resp with
  | Ok images => Ok (fst (fallback resp images))
  | Raise e => Raise e
  end.

(** ** Paths and time stamps *)

(** [pathlib] in its POSIX flavour: a path is kept as its root and its
    components, empty and [.] components being dropped. *)
Fixpoint split_slash (s : string) (cur : string) : list string :=
  match s with
  | EmptyString => [cur]
  | String c rest =>
      if Ascii.eqb c "/" then cur :: split_slash rest ""
      else split_slash rest (cur ++ String c EmptyString)
  end.

Definition path_parts (s : string) : list string :=
  List.filter
    (fun part => negb (String.eqb part "") && negb (String.eqb part "."))
    (split_slash s "").

Definition path_root (s : string) : string :=
  if String.prefix "///" s then "/"
  else if String.prefix "//" s then "//"
  else if String.prefix "/" s then "/"
  else "".

(** [str(Path(s))]. *)
Definition path_str (s : string) : string :=
  match path_root s, path_parts s with
  | "", [] => "."
  | root, parts => root ++ String.concat "/" parts
  end.

(** [str(Path(p) / child)]: an absolute child replaces the left operand. *)
Definition path_div (p child : string) : string :=
  if String.prefix "/" child then path_str child
  else path_str (p ++ "/" ++ child).

Record datetime : Type := mk_datetime {
  year : nat; month : nat; day : nat;
  hour : nat; minute : nat; second : nat
}.

Definition digit (n : nat) : ascii := ascii_of_nat (48 + n mod 10).

Definition pad2 (n : nat) : string :=
  String (digit (n / 10)) (String (digit n) EmptyString).

Definition pad4 (n : nat) : string :=
  String (digit (n / 1000)) (String (digit (n / 100)) (pad2 n)).

(** [dt.strftime("%Y%m%d-%H%M%S")], for the years of four digits that a
    clock gives. *)
Definition strftime (dt : datetime) : string :=
  pad4 (year dt) ++ pad2 (month dt) ++ pad2 (day dt) ++ "-"
  ++ pad2 (hour dt) ++ pad2 (minute dt) ++ pad2 (second dt).

(** ** The world the program runs in *)

(** Requests sent to the remote service. *)
Inductive call : Type :=
  | Upload (path : string)
  | GenerateContent (model : string) (contents : pyval).

(** What an invocation can observe: the environment variables, which
    paths exist, whether creating a directory or writing a file fails, the
    clock, and what the service answers to each request (a response, or
    an exception, [KeyboardInterrupt] included). *)
Record world : Type := mk_world {
  environ : gmap string string;
  path_exists : string -> bool;
  mkdir_error : string -> option exn;
  write_error : string -> option exn;
  clock : datetime;
  service : call -> outcome pyval
}.

(** What an invocation does, in order. *)
Inductive event : Type :=
  | EPrint (v : pyval)
  | EMkdir (path : string)
  | ECall (c : call)
  | EWrite (path : string) (data : list byte).

(** How a function call ends: it returns, it raises, or [sys.exit] was
    called ([SystemExit] is caught by none of the handlers of the program,
    so it is kept apart from the exceptions). *)
Inductive result (A : Type) : Type :=
  | Return (a : A)
  | Raised (e : exn)
  | Exited (code : Z).
Arguments Return {A} a.
Arguments Raised {A} e.
Arguments Exited {A} code.

(** Computations: the trace so far goes in, the result and the extended
    trace come out. *)
Definition M (A : Type) : Type := list event -> result A * list event.

Definition ret {A} (a : A) : M A := fun tr => (Return a, tr).

Definition bind {A B} (m : M A) (k : A -> M B) : M B :=
  fun tr =>
    match m tr with
    | (Return a, tr') => k a tr'
    | (Raised e, tr') => (Raised e, tr')
    | (Exited c, tr') => (Exited c, tr')
    end.

Declare Scope prog_scope.
Delimit Scope prog_scope with prog.
Notation "x <- m ;; k" := (bind m (fun x => k))
  (at level 100, m at level 99, right associativity) : prog_scope.
Notation "m ;; k" := (bind m (fun _ => k))
  (at level 100, right associativity) : prog_scope.

Definition emit (ev : event) : M unit := fun tr => (Return tt, tr ++ [ev]).
Definition raise {A} (e : exn) : M A := fun tr => (Raised e, tr).
Definition sys_exit {A} (code : Z) : M A := fun tr => (Exited code, tr).
Definition print (v : pyval) : M unit := emit (EPrint v).

Definition lift {A} (o : outcome A) : M A :=
  match o with
  | Ok a => ret a
  | Raise e => raise e
  end.

Definition MODEL_TEXT : string := "gemini-2.5-flash".
Definition MODEL_IMAGE : string := "imagen-3.0-generate-002".

Definition NO_IMAGE_MESSAGE : string :=
  "No image returned. Check API key, model access, and quota.".

Definition newline : string := String (ascii_of_nat 10) EmptyString.
Definition dquote : string := String (ascii_of_nat 34) EmptyString.

Definition USAGE : string :=
  String.concat newline
    [ "Usage:";
      "  python simple_assistant.py chat <message>";
      "  python simple_assistant.py analyze-image <path>";
      "  python simple_assistant.py generate-image <prompt>";
      "  python simple_assistant.py help" ].

Definition KEY_GUIDANCE : list string :=
  [ "Error: GEMINI_API_KEY is not set. Set it in this PowerShell session and try again.";
    ("Example: $env:GEMINI_API_KEY = " ++ dquote ++ "YOUR_API_KEY" ++ dquote)%string ].

(** The request [generate_image] sends for a prompt:
    [contents=[{"role": "user", "parts": [{"text": prompt}]}]]. *)
Definition image_request (prompt : string) : call :=
  GenerateContent MODEL_IMAGE
    (PList [PDict [("role", PStr "user");
                   ("parts", PList [PDict [("text", PStr prompt)]])]]).

Section Program.

Variable w : world.
Local Open Scope prog_scope.

(** [os.environ.get(name)]. *)
Definition environ_get (name : string) : pyval :=
  match environ w !! name with
  | Some s => PStr s
  | None => PNone
  end.

(** A request to the service, recorded in the trace. *)
Definition request (c : call) : M pyval :=
  emit (ECall c) ;; lift (service w c).

Definition mkdir (path : string) : M unit :=
  emit (EMkdir path) ;;
  match mkdir_error w path with
  | Some e => raise e
  | None => ret tt
  end.

(** [Path.write_bytes(data)]: the data must expose a buffer, which is
    checked before the file is opened. *)
Definition write_bytes (path : string) (data : pyval) : M unit :=
  match data with
  | PBytes bs | PByteArray bs =>
      match write_error w path with
      | Some e => raise e
      | None => emit (EWrite path bs)
      end
  | _ => raise (mk_exn TypeError "memoryview: a bytes-like object is required")
  end.

Definition require_api_key : M unit :=
  if negb (truthy (environ_get "GEMINI_API_KEY")) then
    print (PStr (nth 0 KEY_GUIDANCE "")) ;;
    print (PStr (nth 1 KEY_GUIDANCE "")) ;;
    sys_exit 2
  else ret tt.

Definition chat (message : string) : M Z :=
  require_api_key ;;
  resp <- request (GenerateContent MODEL_TEXT (PStr message)) ;;
  print (getattr resp "text" (PStr "(no response)")) ;;
  ret 0%Z.

Definition analyze_image (path : string) : M Z :=
  require_api_key ;;
  let p := path_str path in
  if negb (path_exists w p) then
    print (PStr ("File not found: " ++ p)) ;;
    ret 1%Z
  else
    uploaded <- request (Upload p) ;;
    uri <- lift (attr uploaded "uri") ;;
    mime <- lift (attr uploaded "mime_type") ;;
    resp <- request (GenerateContent MODEL_TEXT
              (PList [PDict [("role", PStr "user");
                             ("parts", PList
                                [PDict [("text", PStr "Describe this image and list notable objects.")];
                                 PDict [("file_data", PDict [("file_uri", uri); ("mime_type", mime)])]])]])) ;;
    print (getattr resp "text" (PStr "(no response)")) ;;
    ret 0%Z.

Definition generate_image (prompt : string) : M Z :=
  require_api_key ;;
  let out_dir := path_str "outputs" in
  mkdir out_dir ;;
  emit (ECall (image_request prompt)) ;;
  match service w (image_request prompt) with
  | Raise e =>
      if is_Exception e then
        print (PStr ("Image generation request failed: " ++ exn_msg e)) ;;
        ret 1%Z
      else raise e
  | Ok resp =>
      images <- lift (extract_images resp) ;;
      match images with
      | [] =>
          print (PStr NO_IMAGE_MESSAGE) ;;
          ret 1%Z
      | first :: _ =>
          let ts := strftime (clock w) in
          let out_path := path_div out_dir ("gen-" ++ ts ++ ".png") in
          write_bytes out_path first ;;
          print (PStr ("Saved: " ++ out_path)) ;;
          ret 0%Z
      end
  end.

Definition print_usage : M unit := print (PStr USAGE).

(** [try: body except KeyboardInterrupt: return 130]. *)
Definition catch_interrupt (body : M Z) : M Z :=
  fun tr =>
    match body tr with
    | (Raised e, tr') =>
        match exn_class e with
        | KeyboardInterrupt => (Return 130%Z, tr')
        | _ => (Raised e, tr')
        end
    | r => r
    end.

Definition is_help_flag (s : string) : bool :=
  String.eqb s "-h" || String.eqb s "--help" || String.eqb s "help".

Definition main (argv : list string) : M Z :=
  match argv with
  | [] | [_] => print_usage ;; ret 1%Z
  | _ :: cmd :: args =>
      if is_help_flag cmd then print_usage ;; ret 0%Z
      else
        catch_interrupt
          (if String.eqb cmd "chat" then
             match args with
             | [] => print (PStr "Provide a message.") ;; ret 1%Z
             | _ => chat (String.concat " " args)
             end
           else if String.eqb cmd "analyze-image" then
             match args with
             | [] => print (PStr "Usage: python simple_assistant.py analyze-image <path>") ;; ret 1%Z
             | path :: _ => analyze_image path
             end
           else if String.eqb cmd "generate-image" then
             match args with
             | [] => print (PStr "Usage: python simple_assistant.py generate-image <prompt>") ;; ret 1%Z
             | _ => generate_image (String.concat " " args)
             end
           else
             print (PStr "Unknown command. Try: python simple_assistant.py help") ;;
             ret 1%Z)
  end.

(** Running the script: [sys.exit(main(sys.argv))] on an empty trace.  The
    exit status is the value returned by [main] or the code given to
    [sys.exit]; an uncaught exception ends the interpreter with status 1. *)
Definition run (argv : list string) : result Z * list event := main argv [].

Definition exit_status (r : result Z) : Z :=
  match r with
  | Return c => c
  | Exited c => c
  | Raised _ => 1%Z
  end.

End Program.

(** ** The field lookup as a priority list *)

(** The first name of the list whose attribute is truthy; when none is,
    what the last name gives.  This is the chain
    [getattr(p, n1, None) or getattr(p, n2, None) or ...]. *)
Fixpoint first_truthy (names : list string) (p : pyval) : pyval :=
  match names with
  | [] => PNone
  | [name] => getattr p name PNone
  | name :: rest => py_or (getattr p name PNone) (first_truthy rest p)
  end.

(** The first name of the list whose attribute is present, whatever its
    value: the helper as the design notes word it. *)
Fixpoint first_present (names : list string) (p : pyval) : pyval :=
  match names with
  | [] => PNone
  | name :: rest =>
      match p with
      | PObj attrs =>
          match attrs !! name with
          | Some v => v
          | None => first_present rest p
          end
      | _ => first_present rest p
      end
  end.

(** ** File names *)

Definition is_digit (c : ascii) : bool :=
  (48 <=? nat_of_ascii c)%nat && (nat_of_ascii c <=? 57)%nat.

Definition all_digits (s : string) : bool :=
  forallb is_digit (list_ascii_of_string s).

Definition no_slash (s : string) : bool :=
  forallb (fun c => negb (Ascii.eqb c "/")) (list_ascii_of_string s).

Definition is_write (ev : event) : bool :=
  match ev with
  | EWrite _ _ => true
  | _ => false
  end.

Definition is_call (ev : event) : bool :=
  match ev with
  | ECall _ => true
  | _ => false
  end.

(** What [require_api_key] prints before it exits. *)
Definition KEY_ABSENT_TRACE : list event :=
  [EPrint (PStr (nth 0 KEY_GUIDANCE "")); EPrint (PStr (nth 1 KEY_GUIDANCE ""))].

Definition UNKNOWN_COMMAND : string :=
  "Unknown command. Try: python simple_assistant.py help".

(** The command words [main] knows, help flags included. *)
Definition known_commands : list string :=
  ["-h"; "--help"; "help"; "chat"; "analyze-image"; "generate-image"].

(** ** Sample responses and worlds *)

(** Responses in the shape the service documents: a response holds
    candidates, a candidate a content, a content parts, a part a blob. *)
Definition mk_blob (mime : string) (data : pyval) : pyval :=
  PObj (<["mime_type" := PStr mime]> (<["data" := data]> ∅)).

Definition mk_part (blob : pyval) : pyval :=
  PObj (<["inline_data" := blob]> ∅).

Definition mk_candidate (parts : list pyval) : pyval :=
  PObj (<["content" := PObj (<["parts" := PList parts]> ∅)]> ∅).

Definition mk_response (cands : list pyval) : pyval :=
  PObj (<["candidates" := PList cands]> ∅).

Definition png_magic : list byte := [x89; x50; x4e; x47]%byte.

Definition sample_clock : datetime := mk_datetime 2024 3 9 7 5 1.

(** A world with the given environment where no path exists, the file
    system accepts everything and the service answers [resp]. *)
Definition sample_world (env : gmap string string) (resp : pyval) : world :=
  mk_world env (fun _ => false) (fun _ => None) (fun _ => None)
           sample_clock (fun _ => Ok resp).

Definition with_key : gmap string string := <["GEMINI_API_KEY" := "secret"]> ∅.

(** ** The client and the observations on a run *)

(** [client()]: the key handed to [genai.Client], that is,
    [os.environ.get("GEMINI_API_KEY") or os.environ.get("GOOGLE_API_KEY")]. *)
Definition client_api_key (w : world) : pyval :=
  py_or (environ_get w "GEMINI_API_KEY") (environ_get w "GOOGLE_API_KEY").

Definition is_mkdir (ev : event) : bool :=
  match ev with
  | EMkdir _ => true
  | _ => false
  end.

(** The ways a run of [main] is allowed to end: a status among 0, 1 and
    130, [sys.exit(2)], or an exception other than [KeyboardInterrupt]. *)
Definition ends_as_documented (r : result Z) : Prop :=
  match r with
  | Return c => c = 0%Z \/ c = 1%Z \/ c = 130%Z
  | Exited c => c = 2%Z
  | Raised e => exn_class e <> KeyboardInterrupt
  end.

(** [isinstance(v, bytes)]. *)
Definition is_bytes (v : pyval) : bool :=
  match v with
  | PBytes _ => true
  | _ => false
  end.

(** The representations a blob's data comes in. *)
Inductive wire : Type :=
  | AsBytes
  | AsByteArray
  | AsBase64.

Definition wire_data (k : wire) (bs : list byte) : pyval :=
  match k with
  | AsBytes => PBytes bs
  | AsByteArray => PByteArray bs
  | AsBase64 => PStr (Base64.b64encode bs)
  end.

(** A part that carries the byte string [bs] as an image of type [mime],
    in the representation [k]. *)
Definition image_part (mime : string) (item : wire * list byte) : pyval :=
  mk_part (mk_blob mime (wire_data (fst item) (snd item))).

(** The request [chat] sends for a message. *)
Definition chat_request (message : string) : call :=
  GenerateContent MODEL_TEXT (PStr message).

(** The request [analyze_image] sends once the file is uploaded. *)
Definition describe_request (uri mime : pyval) : call :=
  GenerateContent MODEL_TEXT
    (PList [PDict [("role", PStr "user");
                   ("parts", PList
                      [PDict [("text", PStr "Describe this image and list notable objects.")];
                       PDict [("file_data", PDict [("file_uri", uri); ("mime_type", mime)])]])]]).

(** ** Exhaustive checks over byte values *)

Definition below (n : nat) : list N := map N.of_nat (seq 0 n).

Definition all2 (f : N -> N -> bool) : bool :=
  forallb (fun x => forallb (f x) (below 256)) (below 256).

(** * Properties *)

(** ** The base64 decoder inverts the encoder *)

Module Base64Facts.

Import Base64.
Local Open Scope N_scope.

Lemma below_In (n : nat) (x : N) : x < N.of_nat n -> In x (below n).
Proof.
  intros Hx. unfold below. rewrite <- (N2Nat.id x).
  apply in_map, in_seq. lia.
Qed.

Lemma all2_spec (f : N -> N -> bool) :
  all2 f = true -> forall x y, x < 256 -> y < 256 -> f x y = true.
Proof.
  unfold all2. rewrite forallb_forall. intros H x y Hx Hy.
  specialize (H x (below_In 256 x Hx)). rewrite forallb_forall in H.
  apply H, below_In. exact Hy.
Qed.

Lemma to_N_lt (b : byte) : Byte.to_N b < 256.
Proof. pose proof (Byte.to_N_bounded b). lia. Qed.

Lemma store_uchar_to_N (n : N) (b : byte) :
  n = Byte.to_N b -> store_uchar n = b.
Proof.
  intros ->. unfold store_uchar.
  rewrite N.mod_small by apply to_N_lt.
  rewrite Byte.of_to_N. reflexivity.
Qed.

(** Every character of the alphabet is ASCII, is not the pad character,
    and is mapped back to its index by the decoding table. *)
Lemma alphabet_table (n : N) :
  n < 64 ->
  a2b (b2a n) = Some n /\ Ascii.eqb (b2a n) pad_char = false
  /\ (N_of_ascii (b2a n) <? 128) = true.
Proof.
  intros Hn.
  assert (Hall : forallb (fun m =>
            match a2b (b2a m) with Some k => k =? m | None => false end
            && negb (Ascii.eqb (b2a m) pad_char)
            && (N_of_ascii (b2a m) <? 128)) (below 64) = true)
    by (vm_compute; reflexivity).
  rewrite forallb_forall in Hall.
  specialize (Hall n (below_In 64 n Hn)).
  apply andb_prop in Hall as [Hall Hascii].
  apply andb_prop in Hall as [Hdec Hpad].
  repeat split.
  - destruct (a2b (b2a n)) as [k|]; [|discriminate].
    apply N.eqb_eq in Hdec. now subst.
  - now apply negb_true_iff.
  - exact Hascii.
Qed.

Lemma sextets_small (x y : N) :
  x < 256 -> y < 256 ->
  s0 x < 64 /\ s1 x y < 64 /\ s2 x y < 64 /\ s3 x < 64
  /\ N.shiftl (N.land x 3) 4 < 64 /\ N.shiftl (N.land x 15) 2 < 64.
Proof.
  intros Hx Hy.
  assert (Hall : all2 (fun a b =>
            (s0 a <? 64) && (s1 a b <? 64) && (s2 a b <? 64) && (s3 a <? 64)
            && (N.shiftl (N.land a 3) 4 <? 64)
            && (N.shiftl (N.land a 15) 2 <? 64)) = true)
    by (vm_compute; reflexivity).
  pose proof (all2_spec _ Hall x y Hx Hy) as H.
  repeat (apply andb_prop in H as [H ?]).
  repeat split; now apply N.ltb_lt.
Qed.

(** What the decoder rebuilds from the sextets is what the encoder cut. *)
Lemma regroup (x y : N) :
  x < 256 -> y < 256 ->
  N.lor (N.shiftl (s0 x) 2) (N.shiftr (s1 x y) 4) = x
  /\ N.land (s1 x y) 15 = N.shiftr y 4
  /\ N.lor (N.shiftl (N.shiftr x 4) 4) (N.shiftr (s2 x y) 2) = x
  /\ N.land (s2 x y) 3 = N.shiftr y 6
  /\ N.lor (N.shiftl (N.shiftr x 6) 6) (s3 x) = x
  /\ N.lor (N.shiftl (s0 x) 2) (N.shiftr (N.shiftl (N.land x 3) 4) 4) = x
  /\ N.land (N.shiftl (N.land x 3) 4) 15 = 0
  /\ N.lor (N.shiftl (N.shiftr x 4) 4) (N.shiftr (N.shiftl (N.land x 15) 2) 2) = x.
Proof.
  intros Hx Hy.
  assert (Hall : all2 (fun a b =>
            (N.lor (N.shiftl (s0 a) 2) (N.shiftr (s1 a b) 4) =? a)
            && (N.land (s1 a b) 15 =? N.shiftr b 4)
            && (N.lor (N.shiftl (N.shiftr a 4) 4) (N.shiftr (s2 a b) 2) =? a)
            && (N.land (s2 a b) 3 =? N.shiftr b 6)
            && (N.lor (N.shiftl (N.shiftr a 6) 6) (s3 a) =? a)
            && (N.lor (N.shiftl (s0 a) 2) (N.shiftr (N.shiftl (N.land a 3) 4) 4) =? a)
            && (N.land (N.shiftl (N.land a 3) 4) 15 =? 0)
            && (N.lor (N.shiftl (N.shiftr a 4) 4)
                  (N.shiftr (N.shiftl (N.land a 15) 2) 2) =? a)) = true)
    by (vm_compute; reflexivity).
  pose proof (all2_spec _ Hall x y Hx Hy) as H.
  repeat (apply andb_prop in H as [H ?]).
  repeat split; now apply N.eqb_eq.
Qed.

Lemma step_data (st : a2b_state) (n : N) :
  n < 64 -> a2b_step st (b2a n) = Continue (push_sextet st n).
Proof.
  intros Hn. destruct (alphabet_table n Hn) as (Hdec & Hpad & _).
  unfold a2b_step. rewrite Hpad, Hdec. reflexivity.
Qed.

Lemma step_pad (st : a2b_state) :
  a2b_step st pad_char =
  if 2 <=? quad_pos st then
    if 4 <=? quad_pos st + (pads st + 1)
    then Done (mk_state (quad_pos st) (leftchar st) (pads st + 1) (bin_data st))
    else Continue (mk_state (quad_pos st) (leftchar st) (pads st + 1) (bin_data st))
  else Continue st.
Proof. unfold a2b_step. rewrite Ascii.eqb_refl. reflexivity. Qed.

Lemma step_pad_first (l : N) (out : list byte) :
  a2b_step (mk_state 2 l 0 out) pad_char = Continue (mk_state 2 l 1 out).
Proof. rewrite step_pad. reflexivity. Qed.

Lemma step_pad_second (l : N) (out : list byte) :
  a2b_step (mk_state 2 l 1 out) pad_char = Done (mk_state 2 l 2 out).
Proof. rewrite step_pad. reflexivity. Qed.

Lemma step_pad_single (l : N) (out : list byte) :
  a2b_step (mk_state 3 l 0 out) pad_char = Done (mk_state 3 l 1 out).
Proof. rewrite step_pad. reflexivity. Qed.

(** Induction over a list three elements at a time. *)
Lemma list_ind3 {A : Type} (P : list A -> Prop) :
  P [] -> (forall a, P [a]) -> (forall a b, P [a; b]) ->
  (forall a b c l, P l -> P (a :: b :: c :: l)) ->
  forall l, P l.
Proof.
  intros H0 H1 H2 H3.
  fix IH 1. intros [|a [|b [|c l]]];
    [apply H0 | apply H1 | apply H2 | apply H3, IH].
Qed.

(** A full group of four characters leaves the decoder at the start of a
    quad with the three bytes appended. *)
Lemma loop_group (a b c : byte) (cs : list ascii) (l p : N) (out : list byte) :
  a2b_loop (b2a (s0 (Byte.to_N a)) :: b2a (s1 (Byte.to_N a) (Byte.to_N b))
            :: b2a (s2 (Byte.to_N b) (Byte.to_N c)) :: b2a (s3 (Byte.to_N c)) :: cs)
           (mk_state 0 l p out)
  = a2b_loop cs (mk_state 0 0 0 (out ++ [a; b; c])).
Proof.
  pose proof (to_N_lt a) as Ha. pose proof (to_N_lt b) as Hb.
  pose proof (to_N_lt c) as Hc.
  destruct (sextets_small _ _ Ha Hb) as (h0 & h1 & _).
  destruct (sextets_small _ _ Hb Hc) as (_ & _ & h2 & _).
  destruct (sextets_small _ _ Hc Hc) as (_ & _ & _ & h3 & _).
  destruct (regroup _ _ Ha Hb) as (r0 & r1 & _).
  destruct (regroup _ _ Hb Hc) as (_ & _ & r2 & r3 & _).
  destruct (regroup _ _ Hc Hc) as (_ & _ & _ & _ & r4 & _).
  cbn [a2b_loop]. rewrite (step_data _ _ h0).
  cbn [a2b_loop push_sextet quad_pos leftchar pads bin_data].
  rewrite (step_data _ _ h1).
  cbn [a2b_loop push_sextet quad_pos leftchar pads bin_data].
  rewrite (step_data _ _ h2).
  cbn [a2b_loop push_sextet quad_pos leftchar pads bin_data].
  rewrite (step_data _ _ h3).
  cbn [a2b_loop push_sextet quad_pos leftchar pads bin_data].
  rewrite r1, r3.
  rewrite (store_uchar_to_N _ a r0), (store_uchar_to_N _ b r2),
          (store_uchar_to_N _ c r4).
  rewrite <- !app_assoc. reflexivity.
Qed.

Lemma loop_encode (bs : list byte) :
  forall l p out,
    a2b_loop (encode_chars bs) (mk_state 0 l p out) = Ok (out ++ bs).
Proof.
  induction bs as [|a|a b|a b c rest IH] using list_ind3; intros l p out.
  - cbn. now rewrite app_nil_r.
  - pose proof (to_N_lt a) as Ha.
    destruct (sextets_small _ _ Ha Ha) as (h0 & _ & _ & _ & h1 & _).
    destruct (regroup _ _ Ha Ha) as (_ & _ & _ & _ & _ & r0 & _).
    cbn [encode_chars a2b_loop]. rewrite (step_data _ _ h0).
    cbn [a2b_loop push_sextet quad_pos leftchar pads bin_data].
    rewrite (step_data _ _ h1).
    cbn [a2b_loop push_sextet quad_pos leftchar pads bin_data].
    rewrite step_pad_first. cbn [a2b_loop].
    rewrite step_pad_second. cbn [bin_data].
    now rewrite (store_uchar_to_N _ a r0).
  - pose proof (to_N_lt a) as Ha. pose proof (to_N_lt b) as Hb.
    destruct (sextets_small _ _ Ha Hb) as (h0 & h1 & _).
    destruct (sextets_small _ _ Hb Hb) as (_ & _ & _ & _ & _ & h2).
    destruct (regroup _ _ Ha Hb) as (r0 & r1 & _).
    destruct (regroup _ _ Hb Hb) as (_ & _ & _ & _ & _ & _ & _ & r2).
    cbn [encode_chars a2b_loop]. rewrite (step_data _ _ h0).
    cbn [a2b_loop push_sextet quad_pos leftchar pads bin_data].
    rewrite (step_data _ _ h1).
    cbn [a2b_loop push_sextet quad_pos leftchar pads bin_data].
    rewrite (step_data _ _ h2).
    cbn [a2b_loop push_sextet quad_pos leftchar pads bin_data].
    rewrite step_pad_single. cbn [bin_data].
    rewrite r1.
    rewrite (store_uchar_to_N _ a r0), (store_uchar_to_N _ b r2).
    now rewrite <- app_assoc.
  - cbn [encode_chars]. rewrite loop_group. rewrite IH.
    now rewrite <- app_assoc.
Qed.

Lemma encode_chars_ascii (bs : list byte) :
  forallb (fun c => N_of_ascii c <? 128) (encode_chars bs) = true.
Proof.
  induction bs as [|a|a b|a b c rest IH] using list_ind3.
  - reflexivity.
  - pose proof (to_N_lt a) as Ha.
    destruct (sextets_small _ _ Ha Ha) as (h0 & _ & _ & _ & h1 & _).
    cbn [encode_chars forallb].
    rewrite (proj2 (proj2 (alphabet_table _ h0))),
            (proj2 (proj2 (alphabet_table _ h1))).
    reflexivity.
  - pose proof (to_N_lt a) as Ha. pose proof (to_N_lt b) as Hb.
    destruct (sextets_small _ _ Ha Hb) as (h0 & h1 & _).
    destruct (sextets_small _ _ Hb Hb) as (_ & _ & _ & _ & _ & h2).
    cbn [encode_chars forallb].
    rewrite (proj2 (proj2 (alphabet_table _ h0))),
            (proj2 (proj2 (alphabet_table _ h1))),
            (proj2 (proj2 (alphabet_table _ h2))).
    reflexivity.
  - pose proof (to_N_lt a) as Ha. pose proof (to_N_lt b) as Hb.
    pose proof (to_N_lt c) as Hc.
    destruct (sextets_small _ _ Ha Hb) as (h0 & h1 & _).
    destruct (sextets_small _ _ Hb Hc) as (_ & _ & h2 & _).
    destruct (sextets_small _ _ Hc Hc) as (_ & _ & _ & h3 & _).
    cbn [encode_chars forallb].
    rewrite (proj2 (proj2 (alphabet_table _ h0))),
            (proj2 (proj2 (alphabet_table _ h1))),
            (proj2 (proj2 (alphabet_table _ h2))),
            (proj2 (proj2 (alphabet_table _ h3))).
    exact IH.
Qed.

(** Decoding the base64 text of a byte string gives the byte string back. *)
Lemma b64decode_b64encode (bs : list byte) :
  b64decode (b64encode bs) = Ok bs.
Proof.
  unfold b64decode, b64encode.
  rewrite list_ascii_of_string_of_list_ascii, encode_chars_ascii.
  unfold a2b_base64. now rewrite loop_encode.
Qed.

End Base64Facts.

(** ** The extraction phase *)

Lemma py_iter_raises (v : pyval) (e : exn) :
  py_iter v = Raise e -> is_Exception e = true.
Proof. destruct v; cbn; intros H; inversion H; reflexivity. Qed.

Lemma attr_raises (v : pyval) (name : string) (e : exn) :
  attr v name = Raise e -> is_Exception e = true.
Proof.
  destruct v; cbn; try (intros H; inversion H; reflexivity).
  destruct (attrs !! name); intros H; inversion H; reflexivity.
Qed.

Lemma a2b_loop_raises (cs : list ascii) (st : Base64.a2b_state) (e : exn) :
  Base64.a2b_loop cs st = Raise e -> is_Exception e = true.
Proof.
  revert st. induction cs as [|c cs IH]; intros st; cbn.
  - destruct (Base64.quad_pos st =? 0)%N; [discriminate|].
    destruct (Base64.quad_pos st =? 1)%N; intros H; inversion H; reflexivity.
  - destruct (Base64.a2b_step st c); [apply IH | discriminate].
Qed.

Lemma b64decode_raises (s : string) (e : exn) :
  Base64.b64decode s = Raise e -> is_Exception e = true.
Proof.
  unfold Base64.b64decode, Base64.a2b_base64.
  destruct (forallb _ _).
  - apply a2b_loop_raises.
  - intros H; inversion H; reflexivity.
Qed.

Lemma collect_candidate_raises (cand : pyval) (parts : list pyval) (e : exn) :
  collect_candidate cand parts = Raise e -> is_Exception e = true.
Proof.
  unfold collect_candidate.
  destruct (truthy _ && truthy _); [|discriminate].
  destruct (attr _ _) as [ps|e'] eqn:Hattr.
  - destruct (py_iter ps) as [xs|e''] eqn:Hiter; [discriminate|].
    intros H; inversion H; subst. eapply py_iter_raises; eauto.
  - intros H; inversion H; subst. eapply attr_raises; eauto.
Qed.

Lemma collect_parts_raises (cands parts : list pyval) (e : exn) :
  collect_parts cands parts = Raise e -> is_Exception e = true.
Proof.
  revert parts. induction cands as [|cand rest IH]; intros parts; cbn.
  - discriminate.
  - destruct (collect_candidate cand parts) as [parts'|e'] eqn:Hc.
    + apply IH.
    + intros H; inversion H; subst. eapply collect_candidate_raises; eauto.
Qed.

Lemma gather_raises (resp : pyval) (e : exn) :
  gather resp = Raise e -> is_Exception e = true.
Proof.
  unfold gather. destruct (py_iter _) as [cands|e'] eqn:Hiter.
  - apply collect_parts_raises.
  - intros H; inversion H; subst. eapply py_iter_raises; eauto.
Qed.

Lemma part_payload_raises (p : pyval) (e : exn) :
  part_payload p = Raise e -> is_Exception e = true.
Proof.
  unfold part_payload. destruct (is_image_field _); [|discriminate].
  destruct (getattr _ "data" PNone); try discriminate.
  destruct (Base64.b64decode s) eqn:Hdec; [discriminate|].
  intros H; inversion H; subst. eapply b64decode_raises; eauto.
Qed.

Lemma scan_parts_raises (parts images : list pyval) (e : exn) :
  snd (scan_parts parts images) = Some e -> is_Exception e = true.
Proof.
  revert images. induction parts as [|p rest IH]; intros images; cbn.
  - discriminate.
  - destruct (part_payload p) as [imgs|e'] eqn:Hp.
    + apply IH.
    + cbn. intros H; inversion H; subst. eapply part_payload_raises; eauto.
Qed.

Lemma try_body_raises (resp : pyval) (e : exn) :
  snd (try_body resp) = Some e -> is_Exception e = true.
Proof.
  unfold try_body. destruct (gather resp) as [parts|e'] eqn:Hg.
  - apply scan_parts_raises.
  - cbn. intros H; inversion H; subst. eapply gather_raises; eauto.
Qed.

(** The handler swallows whatever leaves the [try] block. *)
Lemma traverse_ok (resp : pyval) :
  traverse resp = Ok (fst (try_body resp)).
Proof.
  unfold traverse. pose proof (try_body_raises resp) as H.
  destruct (try_body resp) as [images [e|]]; cbn in *; [|reflexivity].
  now rewrite (H e eq_refl).
Qed.

Lemma extract_images_ok (resp : pyval) :
  extract_images resp = Ok (fst (fallback resp (fst (try_body resp)))).
Proof. unfold extract_images. now rewrite traverse_ok. Qed.

Lemma scan_parts_app (pre rest images images' : list pyval) :
  scan_parts pre images = (images', None) ->
  scan_parts (pre ++ rest) images = scan_parts rest images'.
Proof.
  revert images. induction pre as [|p pre IH]; intros images; cbn.
  - intros H; inversion H; reflexivity.
  - destruct (part_payload p) as [imgs|e]; [apply IH | discriminate].
Qed.

Lemma scan_parts_extends (parts images : list pyval) :
  exists more, fst (scan_parts parts images) = images ++ more.
Proof.
  revert images. induction parts as [|p rest IH]; intros images; cbn.
  - exists []. now rewrite app_nil_r.
  - destruct (part_payload p) as [imgs|e].
    + destruct (IH (images ++ imgs)) as [more Hmore].
      exists (imgs ++ more). now rewrite Hmore, app_assoc.
    + exists []. cbn. now rewrite app_nil_r.
Qed.


(** C1: for every response, whatever its shape, the extraction phase of
    [generate_image] (lines 70-93) ends normally with a list of payloads; and
    when the shape makes the collection of the parts fail (candidates or
    parts that cannot be iterated), the traversal contributes no payload,
    so that the phase yields what the fallback gives and no error. *)
Theorem C1_extraction_never_raises (resp : pyval) :
  (exists images, extract_images resp = Ok images)
  /\ (forall e, gather resp = Raise e ->
        traverse resp = Ok []
        /\ extract_images resp = Ok (fst (fallback resp []))).
Proof.
  split.
  - eexists. apply extract_images_ok.
  - intros e He. rewrite extract_images_ok, traverse_ok.
    unfold try_body. rewrite He. split; reflexivity.
Qed.

Lemma C1_extraction_never_raises_witness :
  gather (PObj (<["candidates" := PInt 5]> ∅))
    = Raise (mk_exn TypeError "object is not iterable")
  /\ extract_images (PObj (<["candidates" := PInt 5]> ∅)) = Ok [].
Proof.
  split; [reflexivity|].
  destruct (C1_extraction_never_raises (PObj (<["candidates" := PInt 5]> ∅)))
    as [_ H].
  destruct (H (mk_exn TypeError "object is not iterable") eq_refl) as [_ H'].
  exact H'.
Defined.

(** The payload of a part that the scan reaches lands in [images] right
    after what the earlier parts gave. *)
Lemma reached_part_payload (resp : pyval) (pre post : list pyval) (p : pyval)
      (imgs0 imgs : list pyval) :
  gather resp = Ok (pre ++ p :: post) ->
  scan_parts pre [] = (imgs0, None) ->
  part_payload p = Ok imgs ->
  try_body resp = scan_parts post (imgs0 ++ imgs).
Proof.
  intros Hg Hpre Hp. unfold try_body. rewrite Hg.
  rewrite (scan_parts_app _ _ _ _ Hpre). cbn. now rewrite Hp.
Qed.

Lemma reached_part_extracted (resp : pyval) (pre post : list pyval) (p : pyval)
      (imgs0 : list pyval) (bs : list byte) :
  gather resp = Ok (pre ++ p :: post) ->
  scan_parts pre [] = (imgs0, None) ->
  part_payload p = Ok [PBytes bs] ->
  exists rest, extract_images resp = Ok (imgs0 ++ PBytes bs :: rest).
Proof.
  intros Hg Hpre Hp. rewrite extract_images_ok.
  rewrite (reached_part_payload _ _ _ _ _ _ Hg Hpre Hp).
  destruct (scan_parts_extends post (imgs0 ++ [PBytes bs])) as [more ->].
  exists more. rewrite <- app_assoc. cbn.
  destruct imgs0; reflexivity.
Qed.

(** C2, counterexample: a response whose second part carries image bytes,
    after a first part whose text is not valid base64.  The decoder raises
    on the first part, the handler swallows the exception, and the bytes of
    the second part are not returned. *)
Lemma C2_counterexample :
  let bad := mk_part (mk_blob "image/png" (PStr "abc")) in
  let good := mk_part (mk_blob "image/png" (PBytes png_magic)) in
  let resp := mk_response [mk_candidate [bad; good]] in
  gather resp = Ok [bad; good]
  /\ is_image_field (inline_field good) = true
  /\ getattr (inline_field good) "data" PNone = PBytes png_magic
  /\ extract_images resp = Ok [].
Proof. vm_compute. repeat split; reflexivity. Qed.

(** C2, amended: for every response and every part with image-typed inline
    data that the scan reaches (the parts before it raised nothing): raw
    bytes, as [bytes] or [bytearray], are returned unchanged, in the position
    after the payloads of the earlier parts; the base64 text of a byte
    string is returned decoded to that byte string; data of any other
    representation leaves [images] as it was; and when the part raises (text
    that is not valid base64) the exception is swallowed and ends the scan:
    the payloads found before it are kept and the parts after it contribute
    nothing, whatever they hold. *)
Theorem C2_payload_of_reached_part
        (resp : pyval) (pre post : list pyval) (p : pyval) (imgs0 : list pyval) :
  gather resp = Ok (pre ++ p :: post) ->
  scan_parts pre [] = (imgs0, None) ->
  is_image_field (inline_field p) = true ->
  (forall bs,
      getattr (inline_field p) "data" PNone = PBytes bs
      \/ getattr (inline_field p) "data" PNone = PByteArray bs
      \/ getattr (inline_field p) "data" PNone = PStr (Base64.b64encode bs) ->
      exists rest, extract_images resp = Ok (imgs0 ++ PBytes bs :: rest))
  /\ ((forall bs, getattr (inline_field p) "data" PNone <> PBytes bs) ->
      (forall bs, getattr (inline_field p) "data" PNone <> PByteArray bs) ->
      (forall s, getattr (inline_field p) "data" PNone <> PStr s) ->
      part_payload p = Ok []
      /\ try_body resp = scan_parts post imgs0)
  /\ (forall e,
        part_payload p = Raise e ->
        try_body resp = (imgs0, Some e)
        /\ traverse resp = Ok imgs0
        /\ extract_images resp = Ok (fst (fallback resp imgs0))).
Proof.
  intros Hg Hpre Himg. split; [|split].
  - intros bs Hdata.
    apply (reached_part_extracted resp pre post p imgs0 bs Hg Hpre).
    unfold part_payload. rewrite Himg.
    destruct Hdata as [-> | [-> | ->]]; try reflexivity.
    now rewrite Base64Facts.b64decode_b64encode.
  - intros Hb Hba Hs.
    assert (Hp : part_payload p = Ok []).
    { unfold part_payload. rewrite Himg.
      destruct (getattr (inline_field p) "data" PNone) eqn:Hd;
        try reflexivity.
      - now elim (Hs s).
      - now elim (Hb bs).
      - now elim (Hba bs). }
    split; [exact Hp|].
    rewrite (reached_part_payload _ _ _ _ _ _ Hg Hpre Hp).
    now rewrite app_nil_r.
  - intros e Hp.
    assert (Hbody : try_body resp = (imgs0, Some e)).
    { unfold try_body. rewrite Hg.
      rewrite (scan_parts_app _ _ _ _ Hpre). cbn [scan_parts].
      now rewrite Hp. }
    split; [exact Hbody|].
    rewrite extract_images_ok, traverse_ok, Hbody. split; reflexivity.
Qed.

Lemma C2_payload_of_reached_part_witness :
  (exists rest,
     extract_images
       (mk_response
          [mk_candidate
             [mk_part (mk_blob "text/plain" (PStr "hello"));
              mk_part (mk_blob "image/png"
                         (PStr (Base64.b64encode png_magic)))]])
     = Ok ([] ++ PBytes png_magic :: rest))
  /\ part_payload (mk_part (mk_blob "image/png" (PInt 7))) = Ok []
  /\ extract_images
       (mk_response
          [mk_candidate
             [mk_part (mk_blob "image/png" (PBytes png_magic));
              mk_part (mk_blob "image/png" (PStr "abc"));
              mk_part (mk_blob "image/png" (PBytes [x00]%byte))]])
     = Ok [PBytes png_magic].
Proof.
  split; [|split].
  - refine (proj1 (C2_payload_of_reached_part
              (mk_response
                 [mk_candidate
                    [mk_part (mk_blob "text/plain" (PStr "hello"));
                     mk_part (mk_blob "image/png"
                                (PStr (Base64.b64encode png_magic)))]])
              [mk_part (mk_blob "text/plain" (PStr "hello"))] []
              (mk_part (mk_blob "image/png" (PStr (Base64.b64encode png_magic))))
              [] _ _ _) png_magic _).
    + vm_compute. reflexivity.
    + vm_compute. reflexivity.
    + vm_compute. reflexivity.
    + right. right. vm_compute. reflexivity.
  - refine (proj1 (proj1 (proj2 (C2_payload_of_reached_part
              (mk_response [mk_candidate [mk_part (mk_blob "image/png" (PInt 7))]])
              [] [] (mk_part (mk_blob "image/png" (PInt 7))) [] _ _ _)) _ _ _)).
    + vm_compute. reflexivity.
    + vm_compute. reflexivity.
    + vm_compute. reflexivity.
    + intros bs. vm_compute. discriminate.
    + intros bs. vm_compute. discriminate.
    + intros s0. vm_compute. discriminate.
  - refine (proj2 (proj2 (proj2 (proj2 (C2_payload_of_reached_part
              (mk_response
                 [mk_candidate
                    [mk_part (mk_blob "image/png" (PBytes png_magic));
                     mk_part (mk_blob "image/png" (PStr "abc"));
                     mk_part (mk_blob "image/png" (PBytes [x00]%byte))]])
              [mk_part (mk_blob "image/png" (PBytes png_magic))]
              [mk_part (mk_blob "image/png" (PBytes [x00]%byte))]
              (mk_part (mk_blob "image/png" (PStr "abc")))
              [PBytes png_magic] _ _ _))
              (mk_exn BinasciiError "Incorrect padding") _))).
    + vm_compute. reflexivity.
    + vm_compute. reflexivity.
    + vm_compute. reflexivity.
    + vm_compute. reflexivity.
Defined.

(** C3, counterexample: a part whose [inline_data] attribute is present
    and holds the empty string, and whose [inlineData] attribute holds an
    image.  The first present field is [inline_data]; the code passes over
    it because it is falsy and extracts the payload of [inlineData]. *)
Lemma C3_counterexample :
  let blob := mk_blob "image/png" (PBytes png_magic) in
  let p := PObj (<["inline_data" := PStr ""]> (<["inlineData" := blob]> ∅)) in
  first_present ["inline_data"; "inlineData"] p = PStr ""
  /\ inline_field p = blob
  /\ inline_field p <> first_present ["inline_data"; "inlineData"] p
  /\ part_payload p = Ok [PBytes png_magic].
Proof. vm_compute. repeat split; try reflexivity. discriminate. Qed.

(** C3, amended: for every part, the inline-data field is looked up under
    the two names in the fixed order [inline_data], [inlineData], taking the
    first one whose value is truthy (a name that is absent, or whose value is
    None or otherwise falsy, is passed over); and a part whose field has a
    MIME type that does not start with [image/] contributes no payload. *)
Theorem C3_first_truthy_field_and_mime_gate (p : pyval) :
  inline_field p = first_truthy ["inline_data"; "inlineData"] p
  /\ (truthy (getattr p "inline_data" PNone) = true ->
      inline_field p = getattr p "inline_data" PNone)
  /\ (truthy (getattr p "inline_data" PNone) = false ->
      inline_field p = getattr p "inlineData" PNone)
  /\ (str_startswith_image
        (getattr (inline_field p) "mime_type" (PStr "")) = false ->
      part_payload p = Ok []).
Proof.
  repeat split.
  - unfold inline_field, py_or. now intros ->.
  - unfold inline_field, py_or. now intros ->.
  - intros Hmime. unfold part_payload, is_image_field.
    rewrite Hmime, andb_false_r. reflexivity.
Qed.

Lemma C3_first_truthy_field_and_mime_gate_witness :
  inline_field (mk_part (mk_blob "image/png" (PBytes png_magic)))
    = mk_blob "image/png" (PBytes png_magic)
  /\ inline_field
       (PObj (<["inline_data" := PNone]>
                (<["inlineData" := mk_blob "image/png" (PBytes png_magic)]> ∅)))
     = mk_blob "image/png" (PBytes png_magic)
  /\ part_payload (mk_part (mk_blob "text/plain" (PBytes png_magic))) = Ok [].
Proof.
  split; [|split].
  - refine (proj1 (proj2 (C3_first_truthy_field_and_mime_gate
              (mk_part (mk_blob "image/png" (PBytes png_magic))))) _).
    vm_compute. reflexivity.
  - refine (eq_trans (proj1 (proj2 (proj2 (C3_first_truthy_field_and_mime_gate
              (PObj (<["inline_data" := PNone]>
                 (<["inlineData" := mk_blob "image/png" (PBytes png_magic)]> ∅))))))
              _) _).
    + vm_compute. reflexivity.
    + vm_compute. reflexivity.
  - refine (proj2 (proj2 (proj2 (C3_first_truthy_field_and_mime_gate
              (mk_part (mk_blob "text/plain" (PBytes png_magic)))))) _).
    vm_compute. reflexivity.
Defined.

Lemma gather_ignores_image (attrs : gmap string pyval) (v : pyval) :
  gather (PObj (<["image" := v]> attrs)) = gather (PObj attrs).
Proof.
  unfold gather, getattr.
  rewrite lookup_insert_ne by discriminate. reflexivity.
Qed.

Lemma traverse_ignores_image (attrs : gmap string pyval) (v : pyval) :
  traverse (PObj (<["image" := v]> attrs)) = traverse (PObj attrs).
Proof.
  unfold traverse, try_body. now rewrite gather_ignores_image.
Qed.

(** C4: the top-level [image] attribute is read if and only if the
    traversal of the candidates produced no payload.  When it produced some,
    the result is the traversal's and does not depend on that attribute;
    when it produced none and the attribute holds an image, the result is
    exactly that one payload. *)
Theorem C4_fallback_iff_traversal_empty (resp : pyval) (images : list pyval) :
  traverse resp = Ok images ->
  (snd (fallback resp images) = true <-> images = [])
  /\ (images <> [] ->
      extract_images resp = Ok images
      /\ forall attrs v, resp = PObj attrs ->
           extract_images (PObj (<["image" := v]> attrs)) = Ok images)
  /\ (images = [] ->
      forall img, getattr resp "image" PNone = img -> truthy img = true ->
        extract_images resp = Ok [img]).
Proof.
  intros Ht. repeat split.
  - destruct images; [reflexivity | discriminate].
  - now intros ->.
  - unfold extract_images. rewrite Ht.
    destruct images; [contradiction | reflexivity].
  - intros attrs v ->. unfold extract_images.
    rewrite traverse_ignores_image, Ht.
    destruct images; [contradiction | reflexivity].
  - intros -> img Himg Htruthy. unfold extract_images. rewrite Ht.
    cbn. now rewrite Himg, Htruthy.
Qed.

Lemma C4_fallback_iff_traversal_empty_witness :
  extract_images (PObj (<["image" := PBytes png_magic]> ∅))
    = Ok [PBytes png_magic]
  /\ extract_images
       (PObj (<["image" := PBytes [x00]%byte]>
          (<["candidates" :=
               PList [mk_candidate
                        [mk_part (mk_blob "image/png" (PBytes png_magic))]]]> ∅)))
     = Ok [PBytes png_magic].
Proof.
  split.
  - refine (proj2 (proj2 (C4_fallback_iff_traversal_empty
              (PObj (<["image" := PBytes png_magic]> ∅)) [] _))
              eq_refl (PBytes png_magic) _ _);
      vm_compute; reflexivity.
  - refine (proj2 (proj1 (proj2 (C4_fallback_iff_traversal_empty
              (mk_response
                 [mk_candidate [mk_part (mk_blob "image/png" (PBytes png_magic))]])
              [PBytes png_magic] _)) _)
              (<["candidates" :=
                   PList [mk_candidate
                            [mk_part (mk_blob "image/png" (PBytes png_magic))]]]> ∅)
              (PBytes [x00]%byte) _).
    + vm_compute. reflexivity.
    + discriminate.
    + reflexivity.
Defined.

Lemma collect_parts_nothing (cands parts : list pyval) :
  Forall (fun cand =>
            truthy (getattr (getattr cand "content" PNone) "parts" PNone) = false)
         cands ->
  collect_parts cands parts = Ok parts.
Proof.
  induction 1 as [|cand rest Hcand _ IH]; cbn; [reflexivity|].
  unfold collect_candidate. now rewrite Hcand, andb_false_r.
Qed.

(** An image-less response: its candidates, if any, carry no parts, and it
    has no top-level [image]. *)
Lemma extract_images_nothing (resp : pyval) (cands : list pyval) :
  py_iter (py_or (getattr resp "candidates" (PList [])) (PList [])) = Ok cands ->
  Forall (fun cand =>
            truthy (getattr (getattr cand "content" PNone) "parts" PNone) = false)
         cands ->
  getattr resp "image" PNone = PNone ->
  extract_images resp = Ok [].
Proof.
  intros Hiter Hcands Himage. rewrite extract_images_ok.
  unfold try_body, gather. rewrite Hiter, (collect_parts_nothing _ _ Hcands).
  cbn. now rewrite Himage.
Qed.

(** C10: when the traversal found nothing, the value of the top-level
    [image] attribute becomes the only payload as it is, whatever its type
    (no MIME check, no base64 decoding), provided it is truthy; a falsy
    value, present or not, gives no payload. *)
Theorem C10_fallback_payload_as_is (resp : pyval) (img : pyval) :
  traverse resp = Ok [] ->
  getattr resp "image" PNone = img ->
  (truthy img = true -> extract_images resp = Ok [img])
  /\ (truthy img = false -> extract_images resp = Ok []).
Proof.
  intros Ht Himg. unfold extract_images. rewrite Ht. cbn. rewrite Himg.
  split; now intros ->.
Qed.

Lemma C10_fallback_payload_as_is_witness :
  extract_images (PObj (<["image" := PStr "aGVsbG8="]> ∅))
    = Ok [PStr "aGVsbG8="]
  /\ extract_images (PObj (<["image" := PBytes []]> ∅)) = Ok [].
Proof.
  split.
  - refine (proj1 (C10_fallback_payload_as_is
              (PObj (<["image" := PStr "aGVsbG8="]> ∅)) (PStr "aGVsbG8=") _ _) _);
      vm_compute; reflexivity.
  - refine (proj2 (C10_fallback_payload_as_is
              (PObj (<["image" := PBytes []]> ∅)) (PBytes []) _ _) _);
      vm_compute; reflexivity.
Defined.

(** ** Paths and time stamps *)

Lemma append_cons (c : ascii) (s t : string) :
  (String c s ++ t)%string = String c (s ++ t).
Proof. reflexivity. Qed.

Lemma append_nil_r (s : string) : (s ++ "")%string = s.
Proof.
  induction s as [|c s IH]; [reflexivity|].
  now rewrite append_cons, IH.
Qed.

Lemma append_snoc (s t : string) (c : ascii) :
  ((s ++ String c "") ++ t)%string = (s ++ String c t)%string.
Proof.
  induction s as [|d s IH]; [reflexivity|].
  now rewrite !append_cons, IH.
Qed.

Lemma split_slash_no_slash (s t cur : string) :
  no_slash s = true ->
  split_slash (s ++ t) cur = split_slash t (cur ++ s).
Proof.
  revert cur. induction s as [|c s IH]; intros cur Hs.
  - change ("" ++ t)%string with t. now rewrite append_nil_r.
  - unfold no_slash in Hs. cbn [list_ascii_of_string forallb] in Hs.
    apply andb_prop in Hs as [Hc Hs].
    apply negb_true_iff in Hc.
    rewrite append_cons. cbn [split_slash]. rewrite Hc.
    rewrite (IH _ Hs). now rewrite append_snoc.
Qed.

Lemma no_slash_app (s t : string) :
  no_slash (s ++ t) = no_slash s && no_slash t.
Proof.
  unfold no_slash. induction s as [|c s IH]; [reflexivity|].
  rewrite append_cons. cbn [list_ascii_of_string forallb].
  now rewrite IH, andb_assoc.
Qed.

(** A plain file name under [outputs]. *)
Lemma outputs_child (name : string) :
  no_slash name = true ->
  String.eqb name "" = false -> String.eqb name "." = false ->
  String.prefix "/" name = false ->
  path_div (path_str "outputs") name = ("outputs/" ++ name)%string.
Proof.
  intros Hslash Hempty Hdot Hroot.
  change (path_str "outputs") with "outputs".
  unfold path_div. rewrite Hroot. unfold path_str, path_parts.
  change (path_root ("outputs" ++ "/" ++ name)) with "".
  change (split_slash ("outputs" ++ "/" ++ name) "")
    with ("outputs" :: split_slash name "").
  pose proof (split_slash_no_slash name "" "" Hslash) as Hsplit.
  rewrite append_nil_r in Hsplit. change (split_slash name "" = [name]) in Hsplit.
  rewrite Hsplit.
  change (List.filter _ ["outputs"; name])
    with ("outputs" :: if negb (String.eqb name "") && negb (String.eqb name ".")
                       then [name] else []).
  rewrite Hempty, Hdot. reflexivity.
Qed.

Lemma digit_cases (n : nat) :
  is_digit (digit n) = true /\ Ascii.eqb (digit n) "/" = false.
Proof.
  unfold digit. pose proof (Nat.mod_upper_bound n 10) as Hlt.
  destruct (n mod 10) as [|[|[|[|[|[|[|[|[|[|k]]]]]]]]]];
    try (split; reflexivity).
  lia.
Qed.

Lemma pad2_digits (n : nat) :
  all_digits (pad2 n) = true /\ no_slash (pad2 n) = true
  /\ String.length (pad2 n) = 2%nat.
Proof.
  unfold all_digits, no_slash, pad2.
  cbn [list_ascii_of_string forallb String.length].
  destruct (digit_cases (n / 10)) as [-> ->].
  destruct (digit_cases n) as [-> ->]. repeat split.
Qed.

Lemma pad4_digits (n : nat) :
  all_digits (pad4 n) = true /\ no_slash (pad4 n) = true
  /\ String.length (pad4 n) = 4%nat.
Proof.
  unfold all_digits, no_slash, pad4, pad2.
  cbn [list_ascii_of_string forallb String.length].
  destruct (digit_cases (n / 1000)) as [-> ->].
  destruct (digit_cases (n / 100)) as [-> ->].
  destruct (digit_cases (n / 10)) as [-> ->].
  destruct (digit_cases n) as [-> ->]. repeat split.
Qed.

Lemma all_digits_app (s t : string) :
  all_digits (s ++ t) = all_digits s && all_digits t.
Proof.
  unfold all_digits. induction s as [|c s IH]; [reflexivity|].
  rewrite append_cons. cbn [list_ascii_of_string forallb].
  now rewrite IH, andb_assoc.
Qed.

Lemma append_assoc (s t u : string) :
  ((s ++ t) ++ u)%string = (s ++ t ++ u)%string.
Proof.
  induction s as [|c s IH]; [reflexivity|].
  now rewrite !append_cons, IH.
Qed.

(** The time stamp is eight digits, a dash and six digits. *)
Lemma strftime_shape (dt : datetime) :
  exists date time,
    strftime dt = (date ++ "-" ++ time)%string
    /\ String.length date = 8%nat /\ all_digits date = true
    /\ String.length time = 6%nat /\ all_digits time = true
    /\ no_slash (strftime dt) = true.
Proof.
  destruct (pad4_digits (year dt)) as (y1 & y2 & y3).
  destruct (pad2_digits (month dt)) as (m1 & m2 & m3).
  destruct (pad2_digits (day dt)) as (d1 & d2 & d3).
  destruct (pad2_digits (hour dt)) as (h1 & h2 & h3).
  destruct (pad2_digits (minute dt)) as (i1 & i2 & i3).
  destruct (pad2_digits (second dt)) as (c1 & c2 & c3).
  exists (pad4 (year dt) ++ pad2 (month dt) ++ pad2 (day dt))%string,
         (pad2 (hour dt) ++ pad2 (minute dt) ++ pad2 (second dt))%string.
  split; [reflexivity|].
  split; [reflexivity|].
  split; [now rewrite !all_digits_app, y1, m1, d1|].
  split; [reflexivity|].
  split; [now rewrite !all_digits_app, h1, i1, c1|].
  unfold strftime.
  now rewrite !no_slash_app, y2, m2, d2, h2, i2, c2.
Qed.

Lemma out_path_eq (dt : datetime) :
  path_div (path_str "outputs") ("gen-" ++ strftime dt ++ ".png")
  = ("outputs/gen-" ++ strftime dt ++ ".png")%string.
Proof.
  destruct (strftime_shape dt) as (_ & _ & _ & _ & _ & _ & _ & Hslash).
  apply (outputs_child ("gen-" ++ strftime dt ++ ".png")); try reflexivity.
  rewrite !no_slash_app, Hslash. reflexivity.
Qed.

(** ** The commands *)

Lemma require_api_key_present (w : world) (tr : list event) :
  truthy (environ_get w "GEMINI_API_KEY") = true ->
  require_api_key w tr = (Return tt, tr).
Proof. intros H. unfold require_api_key. now rewrite H. Qed.

Lemma require_api_key_missing (w : world) (tr : list event) :
  truthy (environ_get w "GEMINI_API_KEY") = false ->
  require_api_key w tr = (Exited 2, tr ++ KEY_ABSENT_TRACE).
Proof.
  intros H. unfold require_api_key. rewrite H. cbn.
  unfold bind, print, emit, sys_exit. now rewrite <- app_assoc.
Qed.

Lemma key_value_truthy (w : world) (key : string) :
  environ w !! "GEMINI_API_KEY" = Some key -> key <> "" ->
  truthy (environ_get w "GEMINI_API_KEY") = true.
Proof.
  intros Hkey Hne. unfold environ_get. rewrite Hkey. cbn.
  apply negb_true_iff, String.eqb_neq. exact Hne.
Qed.

Lemma key_absent_falsy (w : world) :
  environ w !! "GEMINI_API_KEY" = None ->
  truthy (environ_get w "GEMINI_API_KEY") = false.
Proof. intros Hkey. unfold environ_get. now rewrite Hkey. Qed.

(** [generate_image] once the response is in: what remains to run after
    line 68. *)
Lemma generate_image_after_response (w : world) (prompt : string) (resp : pyval) :
  truthy (environ_get w "GEMINI_API_KEY") = true ->
  mkdir_error w "outputs" = None ->
  service w (image_request prompt) = Ok resp ->
  generate_image w prompt [] =
  match fst (fallback resp (fst (try_body resp))) with
  | [] =>
      (Return 1%Z,
       [EMkdir "outputs"; ECall (image_request prompt);
        EPrint (PStr NO_IMAGE_MESSAGE)])
  | first :: _ =>
      bind (write_bytes w ("outputs/gen-" ++ strftime (clock w) ++ ".png") first)
           (fun _ =>
              bind (print (PStr ("Saved: " ++ "outputs/gen-"
                                   ++ strftime (clock w) ++ ".png")))
                   (fun _ => ret 0%Z))
           [EMkdir "outputs"; ECall (image_request prompt)]
  end.
Proof.
  intros Hkey Hmkdir Hresp. unfold generate_image.
  change (path_str "outputs") with "outputs".
  unfold bind at 1. rewrite (require_api_key_present w [] Hkey).
  unfold bind at 1. unfold mkdir at 1. unfold bind at 1.
  unfold emit at 1. rewrite Hmkdir. unfold ret at 1.
  unfold bind at 1. unfold emit at 1. rewrite Hresp.
  unfold bind at 1. rewrite extract_images_ok. unfold lift, ret at 1.
  destruct (fst (fallback resp (fst (try_body resp)))) as [|first rest].
  - reflexivity.
  - rewrite out_path_eq. reflexivity.
Qed.

(** C5: for every response without candidates or whose candidates carry no
    parts, and without a top-level [image], the extractor returns the empty
    list, and [generate_image], having received that response, prints the
    message [No image returned. Check API key, model access, and quota.] and
    returns 1: it ends normally, with no exception. *)
Theorem C5_no_image_returns_1
        (w : world) (prompt : string) (resp : pyval) (cands : list pyval) :
  py_iter (py_or (getattr resp "candidates" (PList [])) (PList [])) = Ok cands ->
  Forall (fun cand =>
            truthy (getattr (getattr cand "content" PNone) "parts" PNone) = false)
         cands ->
  getattr resp "image" PNone = PNone ->
  truthy (environ_get w "GEMINI_API_KEY") = true ->
  mkdir_error w "outputs" = None ->
  service w (image_request prompt) = Ok resp ->
  extract_images resp = Ok []
  /\ generate_image w prompt [] =
     (Return 1%Z,
      [EMkdir "outputs"; ECall (image_request prompt);
       EPrint (PStr "No image returned. Check API key, model access, and quota.")]).
Proof.
  intros Hiter Hcands Himage Hkey Hmkdir Hresp.
  pose proof (extract_images_nothing resp cands Hiter Hcands Himage) as Hnone.
  split; [exact Hnone|].
  rewrite (generate_image_after_response w prompt resp Hkey Hmkdir Hresp).
  rewrite extract_images_ok in Hnone. inversion Hnone as [Hfst].
  rewrite Hfst. reflexivity.
Qed.

Lemma C5_no_image_returns_1_witness :
  extract_images (mk_response [mk_candidate []]) = Ok []
  /\ generate_image (sample_world with_key (mk_response [mk_candidate []]))
       "a red kite" [] =
     (Return 1%Z,
      [EMkdir "outputs"; ECall (image_request "a red kite");
       EPrint (PStr "No image returned. Check API key, model access, and quota.")]).
Proof.
  refine (C5_no_image_returns_1
            (sample_world with_key (mk_response [mk_candidate []]))
            "a red kite" (mk_response [mk_candidate []]) [mk_candidate []]
            _ _ _ _ _ _).
  - vm_compute. reflexivity.
  - constructor; [vm_compute; reflexivity | constructor].
  - vm_compute. reflexivity.
  - vm_compute. reflexivity.
  - reflexivity.
  - reflexivity.
Defined.

(** C6, counterexample: on the unknown command word [frobnicate], [main]
    returns 1 but what it prints is the one-line hint, not the usage
    message that [print_usage] prints. *)
Lemma C6_counterexample :
  run (sample_world with_key PNone) ["simple_assistant.py"; "frobnicate"]
    = (Return 1%Z, [EPrint (PStr UNKNOWN_COMMAND)])
  /\ ~ In (EPrint (PStr USAGE))
        (snd (run (sample_world with_key PNone)
                  ["simple_assistant.py"; "frobnicate"])).
Proof.
  split; [reflexivity|].
  intros [H | []]. vm_compute in H. discriminate.
Qed.

(** C6, amended: for every argument vector whose command word is none of
    chat, analyze-image, generate-image, help, -h and --help, [main] prints
    the single line [Unknown command. Try: python simple_assistant.py help]
    and returns 1. *)
Theorem C6_unknown_command (w : world) (prog cmd : string) (args : list string) :
  ~ In cmd known_commands ->
  run w (prog :: cmd :: args)
  = (Return 1%Z,
     [EPrint (PStr "Unknown command. Try: python simple_assistant.py help")]).
Proof.
  intros Hcmd. unfold run, main.
  assert (Hne : forall known, In known known_commands ->
                  String.eqb cmd known = false).
  { intros known Hin. apply String.eqb_neq. intros ->. now apply Hcmd. }
  unfold is_help_flag.
  rewrite (Hne "-h"), (Hne "--help"), (Hne "help"), (Hne "chat"),
          (Hne "analyze-image"), (Hne "generate-image")
    by (cbn; tauto).
  reflexivity.
Qed.

Lemma C6_unknown_command_witness :
  run (sample_world ∅ PNone) ["simple_assistant.py"; "translate"; "bonjour"]
  = (Return 1%Z,
     [EPrint (PStr "Unknown command. Try: python simple_assistant.py help")]).
Proof.
  apply (C6_unknown_command (sample_world ∅ PNone)
           "simple_assistant.py" "translate" ["bonjour"]).
  cbn. intros H.
  repeat (destruct H as [H | H]; [discriminate H|]). exact H.
Defined.

(** C7: with the API key variable set (to a non-empty value, which is what
    [require_api_key] tests), [analyze-image missing.jpg] on a path that does
    not exist prints [File not found: missing.jpg] and returns 1; the trace
    holds that print only, so no request went to the service. *)
Theorem C7_missing_file
        (w : world) (prog key : string) (more : list string) :
  environ w !! "GEMINI_API_KEY" = Some key -> key <> "" ->
  path_exists w "missing.jpg" = false ->
  run w (prog :: "analyze-image" :: "missing.jpg" :: more)
    = (Return 1%Z, [EPrint (PStr "File not found: missing.jpg")])
  /\ analyze_image w "missing.jpg" []
    = (Return 1%Z, [EPrint (PStr "File not found: missing.jpg")])
  /\ List.filter is_call
       (snd (run w (prog :: "analyze-image" :: "missing.jpg" :: more))) = [].
Proof.
  intros Hkey Hne Hexists.
  assert (Hfun : analyze_image w "missing.jpg" []
                 = (Return 1%Z, [EPrint (PStr "File not found: missing.jpg")])).
  { unfold analyze_image. unfold bind at 1.
    rewrite (require_api_key_present w [] (key_value_truthy w key Hkey Hne)).
    change (path_str "missing.jpg") with "missing.jpg".
    rewrite Hexists. reflexivity. }
  assert (Hrun : run w (prog :: "analyze-image" :: "missing.jpg" :: more)
                 = (Return 1%Z, [EPrint (PStr "File not found: missing.jpg")])).
  { unfold run, main.
    change (is_help_flag "analyze-image") with false.
    change (String.eqb "analyze-image" "chat") with false.
    change (String.eqb "analyze-image" "analyze-image") with true.
    cbv iota. unfold catch_interrupt. now rewrite Hfun. }
  repeat split; [exact Hrun | exact Hfun | now rewrite Hrun].
Qed.

Lemma C7_missing_file_witness :
  run (sample_world with_key PNone)
      ["simple_assistant.py"; "analyze-image"; "missing.jpg"]
  = (Return 1%Z, [EPrint (PStr "File not found: missing.jpg")]).
Proof.
  refine (proj1 (C7_missing_file (sample_world with_key PNone)
                   "simple_assistant.py" "secret" [] _ _ _)).
  - vm_compute. reflexivity.
  - discriminate.
  - reflexivity.
Defined.

(** C8, counterexample: [chat] with no message and no API key in the
    environment.  [main] tests the arguments before the command function
    (and with it [require_api_key]) is called: it prints [Provide a message.]
    and returns 1, not 2, and prints no guidance about the key. *)
Lemma C8_counterexample :
  environ (sample_world ∅ PNone) !! "GEMINI_API_KEY" = None
  /\ run (sample_world ∅ PNone) ["simple_assistant.py"; "chat"]
     = (Return 1%Z, [EPrint (PStr "Provide a message.")])
  /\ exit_status (fst (run (sample_world ∅ PNone)
                           ["simple_assistant.py"; "chat"])) <> 2%Z.
Proof. repeat split. vm_compute. discriminate. Qed.

(** C8, amended: for every invocation of chat, analyze-image or
    generate-image that gives at least one argument after the command word,
    with the API key variable absent, the program prints the two lines of
    guidance and exits with code 2, having done nothing else (no directory
    created, no request sent, no file written); the same holds of the three
    command functions themselves, whatever their argument. *)
Theorem C8_missing_key_exits_2
        (w : world) (prog cmd arg : string) (more : list string) :
  environ w !! "GEMINI_API_KEY" = None ->
  cmd = "chat" \/ cmd = "analyze-image" \/ cmd = "generate-image" ->
  run w (prog :: cmd :: arg :: more) = (Exited 2, KEY_ABSENT_TRACE)
  /\ exit_status (fst (run w (prog :: cmd :: arg :: more))) = 2%Z
  /\ (forall s, chat w s [] = (Exited 2, KEY_ABSENT_TRACE)
             /\ analyze_image w s [] = (Exited 2, KEY_ABSENT_TRACE)
             /\ generate_image w s [] = (Exited 2, KEY_ABSENT_TRACE)).
Proof.
  intros Hkey Hcmd.
  pose proof (require_api_key_missing w [] (key_absent_falsy w Hkey)) as Hreq.
  assert (Hfun : forall s, chat w s [] = (Exited 2, KEY_ABSENT_TRACE)
             /\ analyze_image w s [] = (Exited 2, KEY_ABSENT_TRACE)
             /\ generate_image w s [] = (Exited 2, KEY_ABSENT_TRACE)).
  { intros s. unfold chat, analyze_image, generate_image.
    repeat split; unfold bind at 1; now rewrite Hreq. }
  assert (Hrun : run w (prog :: cmd :: arg :: more) = (Exited 2, KEY_ABSENT_TRACE)).
  { unfold run, main, catch_interrupt.
    destruct Hcmd as [-> | [-> | ->]].
    - change (is_help_flag "chat") with false.
      change (String.eqb "chat" "chat") with true. cbv beta iota.
      now rewrite (proj1 (Hfun _)).
    - change (is_help_flag "analyze-image") with false.
      change (String.eqb "analyze-image" "chat") with false.
      change (String.eqb "analyze-image" "analyze-image") with true. cbv beta iota.
      now rewrite (proj1 (proj2 (Hfun _))).
    - change (is_help_flag "generate-image") with false.
      change (String.eqb "generate-image" "chat") with false.
      change (String.eqb "generate-image" "analyze-image") with false.
      change (String.eqb "generate-image" "generate-image") with true. cbv beta iota.
      now rewrite (proj2 (proj2 (Hfun _))). }
  repeat split; try apply Hfun; [exact Hrun | now rewrite Hrun].
Qed.

Lemma C8_missing_key_exits_2_witness :
  run (sample_world ∅ PNone) ["simple_assistant.py"; "generate-image"; "a"; "kite"]
  = (Exited 2,
     [EPrint (PStr "Error: GEMINI_API_KEY is not set. Set it in this PowerShell session and try again.");
      EPrint (PStr (nth 1 KEY_GUIDANCE ""))]).
Proof.
  refine (proj1 (C8_missing_key_exits_2 (sample_world ∅ PNone)
                   "simple_assistant.py" "generate-image" "a" ["kite"] _ _)).
  - reflexivity.
  - right. right. reflexivity.
Defined.

Lemma write_bytes_returns (w : world) (path : string) (data : pyval)
      (tr tr' : list event) (u : unit) :
  write_bytes w path data tr = (Return u, tr') ->
  exists bs, (data = PBytes bs \/ data = PByteArray bs)
             /\ tr' = tr ++ [EWrite path bs].
Proof.
  unfold write_bytes.
  destruct data; try discriminate;
    (destruct (write_error w path); [discriminate|]);
    unfold emit; intros H; inversion H; subst; eauto.
Qed.

(** With the key set, the directory made, a response received whose first
    payload is bytes and a file system that accepts the write,
    [generate_image] does save the file and returns 0. *)
Lemma generate_image_saves (w : world) (prompt : string) (resp first : pyval)
      (rest : list pyval) (bs : list byte) :
  truthy (environ_get w "GEMINI_API_KEY") = true ->
  mkdir_error w "outputs" = None ->
  service w (image_request prompt) = Ok resp ->
  extract_images resp = Ok (first :: rest) ->
  first = PBytes bs \/ first = PByteArray bs ->
  write_error w ("outputs/gen-" ++ strftime (clock w) ++ ".png") = None ->
  generate_image w prompt [] =
  (Return 0%Z,
   [EMkdir "outputs"; ECall (image_request prompt);
    EWrite ("outputs/gen-" ++ strftime (clock w) ++ ".png") bs;
    EPrint (PStr ("Saved: outputs/gen-" ++ strftime (clock w) ++ ".png"))]).
Proof.
  intros Hkey Hmkdir Hresp Himages Hfirst Hwrite.
  rewrite (generate_image_after_response w prompt resp Hkey Hmkdir Hresp).
  rewrite extract_images_ok in Himages. inversion Himages as [Hfst].
  rewrite Hfst. unfold bind at 1. unfold write_bytes.
  destruct Hfirst as [-> | ->]; rewrite Hwrite; reflexivity.
Qed.

(** C9: every invocation of [generate_image] that returns 0 received a
    response whose extraction gave at least one payload, and wrote exactly
    one file: its path is [outputs/gen-YYYYMMDD-HHMMSS.png], with the digits
    of the clock, and its contents are the bytes of the first payload; the
    payloads after the first are written nowhere. *)
Theorem C9_one_file_first_payload
        (w : world) (prompt : string) (tr : list event) :
  generate_image w prompt [] = (Return 0%Z, tr) ->
  exists resp first rest bs date time,
    service w (image_request prompt) = Ok resp
    /\ extract_images resp = Ok (first :: rest)
    /\ (first = PBytes bs \/ first = PByteArray bs)
    /\ List.filter is_write tr
       = [EWrite ("outputs/" ++ "gen-" ++ date ++ "-" ++ time ++ ".png") bs]
    /\ strftime (clock w) = (date ++ "-" ++ time)%string
    /\ String.length date = 8%nat /\ all_digits date = true
    /\ String.length time = 6%nat /\ all_digits time = true
    /\ tr = [EMkdir "outputs"; ECall (image_request prompt);
             EWrite ("outputs/gen-" ++ strftime (clock w) ++ ".png") bs;
             EPrint (PStr ("Saved: outputs/gen-" ++ strftime (clock w) ++ ".png"))].
Proof.
  intros Hrun.
  destruct (truthy (environ_get w "GEMINI_API_KEY")) eqn:Hkey.
  2:{ unfold generate_image in Hrun. unfold bind at 1 in Hrun.
      rewrite (require_api_key_missing w [] Hkey) in Hrun. discriminate. }
  destruct (mkdir_error w "outputs") as [e|] eqn:Hmkdir.
  { unfold generate_image in Hrun. unfold bind at 1 in Hrun.
    rewrite (require_api_key_present w [] Hkey) in Hrun.
    change (path_str "outputs") with "outputs" in Hrun.
    unfold bind at 1 in Hrun. unfold mkdir, bind, emit in Hrun.
    rewrite Hmkdir in Hrun. discriminate. }
  destruct (service w (image_request prompt)) as [resp|e] eqn:Hresp.
  2:{ unfold generate_image in Hrun. unfold bind at 1 in Hrun.
      rewrite (require_api_key_present w [] Hkey) in Hrun.
      change (path_str "outputs") with "outputs" in Hrun.
      unfold bind at 1 in Hrun. unfold mkdir at 1 in Hrun.
      unfold bind at 1 in Hrun. unfold emit at 1 in Hrun.
      rewrite Hmkdir in Hrun. unfold ret at 1 in Hrun.
      unfold bind at 1 in Hrun. unfold emit at 1 in Hrun.
      rewrite Hresp in Hrun.
      destruct (is_Exception e); cbn in Hrun; discriminate. }
  rewrite (generate_image_after_response w prompt resp Hkey Hmkdir Hresp) in Hrun.
  destruct (fst (fallback resp (fst (try_body resp))))
    as [|first rest] eqn:Himages; [discriminate|].
  unfold bind at 1 in Hrun.
  destruct (write_bytes w _ first _) as [[u|e|c] tr1] eqn:Hwrite;
    try discriminate.
  apply write_bytes_returns in Hwrite as (bs & Hfirst & ->).
  unfold bind, print, emit, ret in Hrun. inversion Hrun as [Htr].
  destruct (strftime_shape (clock w))
    as (date & time & Hstamp & Hd1 & Hd2 & Ht1 & Ht2 & _).
  exists resp, first, rest, bs, date, time.
  split; [reflexivity|].
  split; [now rewrite extract_images_ok, Himages|].
  split; [exact Hfirst|].
  split.
  { cbn. rewrite Hstamp. now rewrite !append_assoc. }
  repeat split; assumption || reflexivity.
Qed.

Lemma C9_one_file_first_payload_witness :
  exists resp first rest bs date time,
    service (sample_world with_key
               (mk_response
                  [mk_candidate
                     [mk_part (mk_blob "image/png" (PBytes png_magic));
                      mk_part (mk_blob "image/png" (PBytes [x00]%byte))]]))
            (image_request "a red kite") = Ok resp
    /\ extract_images resp = Ok (first :: rest)
    /\ (first = PBytes bs \/ first = PByteArray bs)
    /\ List.filter is_write
         [EMkdir "outputs"; ECall (image_request "a red kite");
          EWrite "outputs/gen-20240309-070501.png" png_magic;
          EPrint (PStr "Saved: outputs/gen-20240309-070501.png")]
       = [EWrite ("outputs/" ++ "gen-" ++ date ++ "-" ++ time ++ ".png") bs]
    /\ strftime sample_clock = (date ++ "-" ++ time)%string
    /\ String.length date = 8%nat /\ all_digits date = true
    /\ String.length time = 6%nat /\ all_digits time = true
    /\ [EMkdir "outputs"; ECall (image_request "a red kite");
        EWrite "outputs/gen-20240309-070501.png" png_magic;
        EPrint (PStr "Saved: outputs/gen-20240309-070501.png")]
       = [EMkdir "outputs"; ECall (image_request "a red kite");
          EWrite ("outputs/gen-" ++ strftime sample_clock ++ ".png") bs;
          EPrint (PStr ("Saved: outputs/gen-" ++ strftime sample_clock ++ ".png"))].
Proof.
  apply (C9_one_file_first_payload
           (sample_world with_key
              (mk_response
                 [mk_candidate
                    [mk_part (mk_blob "image/png" (PBytes png_magic));
                     mk_part (mk_blob "image/png" (PBytes [x00]%byte))]]))
           "a red kite").
  vm_compute. reflexivity.
Defined.

(** * Further properties of the program *)

(** ** Command dispatch *)

(** ** The commands, run from an empty trace *)

(** Unfolds the monadic plumbing of a command. *)
Ltac unfold_steps :=
  cbv [request mkdir write_bytes print_usage
       bind ret emit print lift raise sys_exit app].

Lemma chat_run (w : world) (message : string) :
  chat w message [] =
  if truthy (environ_get w "GEMINI_API_KEY") then
    match service w (chat_request message) with
    | Ok resp =>
        (Return 0%Z,
         [ECall (chat_request message);
          EPrint (getattr resp "text" (PStr "(no response)"))])
    | Raise e => (Raised e, [ECall (chat_request message)])
    end
  else (Exited 2, KEY_ABSENT_TRACE).
Proof.
  unfold chat. unfold bind at 1.
  destruct (truthy (environ_get w "GEMINI_API_KEY")) eqn:Hkey.
  - rewrite (require_api_key_present w [] Hkey). unfold_steps.
    fold (chat_request message).
    destruct (service w (chat_request message)); reflexivity.
  - now rewrite (require_api_key_missing w [] Hkey).
Qed.

Lemma analyze_image_run (w : world) (path : string) :
  analyze_image w path [] =
  if truthy (environ_get w "GEMINI_API_KEY") then
    if path_exists w (path_str path) then
      match service w (Upload (path_str path)) with
      | Ok uploaded =>
          match attr uploaded "uri" with
          | Ok uri =>
              match attr uploaded "mime_type" with
              | Ok mime =>
                  match service w (describe_request uri mime) with
                  | Ok resp =>
                      (Return 0%Z,
                       [ECall (Upload (path_str path));
                        ECall (describe_request uri mime);
                        EPrint (getattr resp "text" (PStr "(no response)"))])
                  | Raise e =>
                      (Raised e,
                       [ECall (Upload (path_str path));
                        ECall (describe_request uri mime)])
                  end
              | Raise e => (Raised e, [ECall (Upload (path_str path))])
              end
          | Raise e => (Raised e, [ECall (Upload (path_str path))])
          end
      | Raise e => (Raised e, [ECall (Upload (path_str path))])
      end
    else (Return 1%Z, [EPrint (PStr ("File not found: " ++ path_str path))])
  else (Exited 2, KEY_ABSENT_TRACE).
Proof.
  unfold analyze_image. unfold bind at 1.
  destruct (truthy (environ_get w "GEMINI_API_KEY")) eqn:Hkey.
  - rewrite (require_api_key_present w [] Hkey).
    destruct (path_exists w (path_str path)); [|reflexivity].
    cbn [negb]. unfold_steps.
    destruct (service w (Upload (path_str path))) as [uploaded|e];
      [|reflexivity].
    unfold_steps.
    destruct (attr uploaded "uri") as [uri|e]; [|reflexivity].
    unfold_steps.
    destruct (attr uploaded "mime_type") as [mime|e]; [|reflexivity].
    unfold_steps. fold (describe_request uri mime).
    destruct (service w (describe_request uri mime)); reflexivity.
  - now rewrite (require_api_key_missing w [] Hkey).
Qed.

Lemma generate_image_run (w : world) (prompt : string) :
  generate_image w prompt [] =
  if truthy (environ_get w "GEMINI_API_KEY") then
    match mkdir_error w "outputs" with
    | Some e => (Raised e, [EMkdir "outputs"])
    | None =>
        match service w (image_request prompt) with
        | Raise e =>
            if is_Exception e then
              (Return 1%Z,
               [EMkdir "outputs"; ECall (image_request prompt);
                EPrint (PStr ("Image generation request failed: " ++ exn_msg e))])
            else (Raised e, [EMkdir "outputs"; ECall (image_request prompt)])
        | Ok resp =>
            match fst (fallback resp (fst (try_body resp))) with
            | [] =>
                (Return 1%Z,
                 [EMkdir "outputs"; ECall (image_request prompt);
                  EPrint (PStr NO_IMAGE_MESSAGE)])
            | first :: _ =>
                bind (write_bytes w ("outputs/gen-" ++ strftime (clock w) ++ ".png")
                                  first)
                     (fun _ =>
                        bind (print (PStr ("Saved: " ++ "outputs/gen-"
                                             ++ strftime (clock w) ++ ".png")))
                             (fun _ => ret 0%Z))
                     [EMkdir "outputs"; ECall (image_request prompt)]
            end
        end
    end
  else (Exited 2, KEY_ABSENT_TRACE).
Proof.
  destruct (truthy (environ_get w "GEMINI_API_KEY")) eqn:Hkey.
  2:{ unfold generate_image. unfold bind at 1.
      now rewrite (require_api_key_missing w [] Hkey). }
  destruct (mkdir_error w "outputs") as [e|] eqn:Hmkdir.
  { unfold generate_image. unfold bind at 1.
    rewrite (require_api_key_present w [] Hkey).
    change (path_str "outputs") with "outputs".
    unfold bind at 1. unfold mkdir, bind, emit. now rewrite Hmkdir. }
  destruct (service w (image_request prompt)) as [resp|e] eqn:Hresp.
  { apply (generate_image_after_response w prompt resp Hkey Hmkdir Hresp). }
  unfold generate_image. unfold bind at 1.
  rewrite (require_api_key_present w [] Hkey).
  change (path_str "outputs") with "outputs".
  unfold bind at 1. unfold mkdir at 1. unfold bind at 1. unfold emit at 1.
  rewrite Hmkdir. unfold ret at 1. unfold bind at 1. unfold emit at 1.
  rewrite Hresp. destruct (is_Exception e); reflexivity.
Qed.

(** [main] on a command word that is no help flag. *)
Lemma main_dispatch (w : world) (prog cmd : string) (args : list string) :
  is_help_flag cmd = false ->
  run w (prog :: cmd :: args) =
  catch_interrupt
    (if String.eqb cmd "chat" then
       match args with
       | [] => fun tr => (Return 1%Z, tr ++ [EPrint (PStr "Provide a message.")])
       | _ => chat w (String.concat " " args)
       end
     else if String.eqb cmd "analyze-image" then
       match args with
       | [] => fun tr =>
           (Return 1%Z,
            tr ++ [EPrint (PStr "Usage: python simple_assistant.py analyze-image <path>")])
       | path :: _ => analyze_image w path
       end
     else if String.eqb cmd "generate-image" then
       match args with
       | [] => fun tr =>
           (Return 1%Z,
            tr ++ [EPrint (PStr "Usage: python simple_assistant.py generate-image <prompt>")])
       | _ => generate_image w (String.concat " " args)
       end
     else fun tr => (Return 1%Z, tr ++ [EPrint (PStr UNKNOWN_COMMAND)]))
    [].
Proof.
  intros Hhelp. unfold run, main. rewrite Hhelp.
  repeat match goal with
         | |- context [String.eqb cmd ?s] => destruct (String.eqb cmd s)
         end;
    destruct args; reflexivity.
Qed.

(** ** Command dispatch *)

(** X1: what [main] does with an argument vector that names no command
    to run is fixed by the arguments alone, in every world (the environment,
    the file system and the service are not consulted).  Without a command
    word it prints the usage text and returns 1; with [-h], [--help] or
    [help] as the command word it prints the usage text and returns 0,
    whatever follows; a command given without its argument is answered with
    its hint and 1, before the API key is looked at. *)
Theorem X1_usage_and_hints (w : world) (prog : string) :
  run w [] = (Return 1%Z, [EPrint (PStr USAGE)])
  /\ run w [prog] = (Return 1%Z, [EPrint (PStr USAGE)])
  /\ (forall cmd args,
        cmd = "-h" \/ cmd = "--help" \/ cmd = "help" ->
        run w (prog :: cmd :: args) = (Return 0%Z, [EPrint (PStr USAGE)]))
  /\ run w [prog; "chat"] = (Return 1%Z, [EPrint (PStr "Provide a message.")])
  /\ run w [prog; "analyze-image"]
     = (Return 1%Z,
        [EPrint (PStr "Usage: python simple_assistant.py analyze-image <path>")])
  /\ run w [prog; "generate-image"]
     = (Return 1%Z,
        [EPrint (PStr "Usage: python simple_assistant.py generate-image <prompt>")]).
Proof.
  split; [reflexivity|]. split; [reflexivity|]. split.
  - intros cmd args [-> | [-> | ->]]; reflexivity.
  - repeat split.
Qed.

Lemma X1_usage_and_hints_witness :
  run (sample_world ∅ PNone) ["simple_assistant.py"; "--help"; "chat"; "hi"]
  = (Return 0%Z, [EPrint (PStr USAGE)]).
Proof.
  refine (proj1 (proj2 (proj2 (X1_usage_and_hints (sample_world ∅ PNone)
            "simple_assistant.py")))
            "--help" ["chat"; "hi"] _).
  right. left. reflexivity.
Defined.

(** Splits a goal over what the world answers, innermost question first. *)
Ltac split_world :=
  repeat match goal with
         | |- context [truthy (environ_get ?w ?k)] =>
             destruct (truthy (environ_get w k)) eqn:?
         | |- context [path_exists ?w ?p] => destruct (path_exists w p) eqn:?
         | |- context [mkdir_error ?w ?p] => destruct (mkdir_error w p) eqn:?
         | |- context [service ?w ?c] => destruct (service w c) eqn:?
         | |- context [attr ?v ?n] => destruct (attr v n) eqn:?
         | |- context [is_Exception ?e] => destruct (is_Exception e) eqn:?
         | |- context [write_error ?w ?p] => destruct (write_error w p) eqn:?
         end.

Ltac split_class :=
  cbv beta iota;
  repeat match goal with
         | |- context [match exn_class ?e with _ => _ end] =>
             destruct (exn_class e) eqn:?
         end.

(** Rewrites a run of [main] into the runs of the commands. *)
Ltac enter_command Hhelp :=
  rewrite (main_dispatch _ _ _ _ Hhelp);
  repeat match goal with
         | |- context [String.eqb ?c ?s] => destruct (String.eqb c s) eqn:?
         end;
  match goal with
  | |- context [match ?args with [] => _ | _ :: _ => _ end] => destruct args
  | _ => idtac
  end;
  unfold catch_interrupt;
  rewrite ?chat_run, ?analyze_image_run, ?generate_image_run.

(** The ways [main] can end. *)
Lemma run_ends_as_documented (w : world) (argv : list string) :
  ends_as_documented (fst (run w argv)).
Proof.
  destruct argv as [|prog [|cmd args]]; [cbn; tauto | cbn; tauto |].
  destruct (is_help_flag cmd) eqn:Hhelp.
  { unfold run, main. rewrite Hhelp. cbn. tauto. }
  enter_command Hhelp; split_world;
    try (cbn; tauto).
  all: match goal with
       | |- context [fallback ?r ?i] =>
           destruct (fst (fallback r i)) as [|[] ?]; unfold_steps; split_world
       | _ => idtac
       end.
  all: cbn; try tauto; try discriminate.
  all: match goal with
       | |- context [exn_class ?e] =>
           destruct (exn_class e) eqn:Hclass; cbn; try tauto;
           rewrite Hclass; discriminate
       end.
Qed.

(** X2: whatever the service and the file system answer or raise, a run
    of [main] ends by returning 0, 1 or 130, by [sys.exit(2)], or with an
    exception that is not [KeyboardInterrupt]: every request, the [mkdir]
    and the write happen inside the [try] of [main], so an interrupt that one
    of them raises is turned into 130 and does not leave [main].  The exit
    status of the process is then 0, 1, 2 or 130.  (An interrupt that arrives
    elsewhere, such as while the usage text is printed before the [try], is
    outside this statement: here only the service and the file system
    raise.) *)
Theorem X2_exit_codes (w : world) (argv : list string) :
  ends_as_documented (fst (run w argv))
  /\ In (exit_status (fst (run w argv))) [0%Z; 1%Z; 2%Z; 130%Z].
Proof.
  pose proof (run_ends_as_documented w argv) as Hend.
  split; [exact Hend|].
  destruct (fst (run w argv)) as [c|e|c]; cbn in *.
  - destruct Hend as [-> | [-> | ->]]; tauto.
  - tauto.
  - subst. tauto.
Qed.

Lemma key_truthy_value (w : world) :
  truthy (environ_get w "GEMINI_API_KEY") = true ->
  exists key, environ w !! "GEMINI_API_KEY" = Some key /\ key <> ""
              /\ client_api_key w = PStr key.
Proof.
  unfold client_api_key, py_or, environ_get.
  destruct (environ w !! "GEMINI_API_KEY") as [key|]; [|discriminate].
  intros Hkey. rewrite Hkey. exists key. repeat split.
  intros ->. discriminate.
Qed.

(** Closes a goal whose run has been computed down to a literal trace. *)
Ltac close_run :=
  cbn; try tauto; try discriminate; try lia; try congruence.

(** X3: no run of [main] sends a request to the service unless
    [GEMINI_API_KEY] holds a non-empty value, and that value is then the key
    [client()] passes on: the [GOOGLE_API_KEY] alternative of [client()] never
    decides which key a request is sent with. *)
Theorem X3_requests_use_gemini_key (w : world) (argv : list string) :
  List.filter is_call (snd (run w argv)) <> [] ->
  exists key, environ w !! "GEMINI_API_KEY" = Some key /\ key <> ""
              /\ client_api_key w = PStr key.
Proof.
  destruct argv as [|prog [|cmd args]]; [cbn; congruence | cbn; congruence |].
  destruct (is_help_flag cmd) eqn:Hhelp.
  { unfold run, main. rewrite Hhelp. cbn. congruence. }
  enter_command Hhelp;
    try (cbn; congruence);
    (destruct (truthy (environ_get w "GEMINI_API_KEY")) eqn:Hkey;
     [intros _; apply key_truthy_value, Hkey | cbn; congruence]).
Qed.

Lemma X3_requests_use_gemini_key_witness :
  exists key,
    environ (sample_world with_key (PObj (<["text" := PStr "hello"]> ∅)))
      !! "GEMINI_API_KEY" = Some key
    /\ key <> ""
    /\ client_api_key (sample_world with_key (PObj (<["text" := PStr "hello"]> ∅)))
       = PStr key.
Proof.
  apply (X3_requests_use_gemini_key
           (sample_world with_key (PObj (<["text" := PStr "hello"]> ∅)))
           ["simple_assistant.py"; "chat"; "hi"]).
  vm_compute. discriminate.
Defined.



(** X5: only [generate-image] touches the file system and only
    [analyze-image] sends more than one request: a run with any other command
    word creates no directory and writes no file, and a run with a command
    word other than [analyze-image] sends at most one request. *)
Theorem X5_effects_by_command
        (w : world) (prog cmd : string) (args : list string) :
  (cmd <> "generate-image" ->
   List.filter is_mkdir (snd (run w (prog :: cmd :: args))) = []
   /\ List.filter is_write (snd (run w (prog :: cmd :: args))) = [])
  /\ (cmd <> "analyze-image" ->
      (length (List.filter is_call (snd (run w (prog :: cmd :: args)))) <= 1)%nat).
Proof.
  destruct (is_help_flag cmd) eqn:Hhelp.
  { unfold run, main. rewrite Hhelp. cbn. repeat split. lia. }
  enter_command Hhelp;
    repeat match goal with
           | H : String.eqb _ _ = true |- _ => apply String.eqb_eq in H; subst
           end;
    (split; [intros Hgen | intros Han]); try congruence;
    split_world;
    try (cbn; repeat split; lia).
  all: match goal with
       | |- context [fallback ?r ?i] =>
           destruct (fst (fallback r i)) as [|[] ?]; unfold_steps; split_world
       | _ => idtac
       end.
  all: split_class;
    cbn [fst snd List.filter is_call is_mkdir is_write length];
    repeat split; lia.
Qed.

Lemma X5_effects_by_command_witness :
  List.filter is_mkdir
    (snd (run (sample_world with_key PNone)
              ["simple_assistant.py"; "chat"; "hi"])) = []
  /\ (length (List.filter is_call
        (snd (run (sample_world with_key PNone)
                  ["simple_assistant.py"; "generate-image"; "kite"]))) <= 1)%nat.
Proof.
  split.
  - refine (proj1 (proj1 (X5_effects_by_command (sample_world with_key PNone)
              "simple_assistant.py" "chat" ["hi"]) _)).
    discriminate.
  - refine (proj2 (X5_effects_by_command (sample_world with_key PNone)
              "simple_assistant.py" "generate-image" ["kite"]) _).
    discriminate.
Defined.

(** X6: whenever a run ends through [sys.exit], the code is 2, the key
    [GEMINI_API_KEY] is absent or empty, and the two guidance lines are all
    that was done. *)
Theorem X6_exit_only_for_missing_key
        (w : world) (argv : list string) (code : Z) :
  fst (run w argv) = Exited code ->
  code = 2%Z
  /\ truthy (environ_get w "GEMINI_API_KEY") = false
  /\ snd (run w argv) = KEY_ABSENT_TRACE.
Proof.
  destruct argv as [|prog [|cmd args]]; [cbn; congruence | cbn; congruence |].
  destruct (is_help_flag cmd) eqn:Hhelp.
  { unfold run, main. rewrite Hhelp. cbn. congruence. }
  enter_command Hhelp; split_world;
    try (cbn; congruence);
    try (cbn; intros H; inversion H; repeat split; reflexivity).
  all: match goal with
       | |- context [fallback ?r ?i] =>
           destruct (fst (fallback r i)) as [|[] ?]; unfold_steps; split_world
       | _ => idtac
       end.
  all: split_class; cbn [fst snd]; congruence.
Qed.

Lemma X6_exit_only_for_missing_key_witness :
  2%Z = 2%Z
  /\ truthy (environ_get (sample_world ∅ PNone) "GEMINI_API_KEY") = false
  /\ snd (run (sample_world ∅ PNone) ["simple_assistant.py"; "chat"; "hi"])
     = KEY_ABSENT_TRACE.
Proof.
  apply (X6_exit_only_for_missing_key (sample_world ∅ PNone)
           ["simple_assistant.py"; "chat"; "hi"] 2%Z).
  reflexivity.
Defined.

(** X7: an empty [GEMINI_API_KEY] counts as a missing one, and a
    [GOOGLE_API_KEY], although [client()] would accept it, does not stand in:
    every command given an argument prints the guidance and exits with 2. *)
Theorem X7_empty_key_exits_2
        (w : world) (prog cmd arg : string) (more : list string) :
  environ w !! "GEMINI_API_KEY" = None \/ environ w !! "GEMINI_API_KEY" = Some "" ->
  cmd = "chat" \/ cmd = "analyze-image" \/ cmd = "generate-image" ->
  run w (prog :: cmd :: arg :: more) = (Exited 2, KEY_ABSENT_TRACE)
  /\ client_api_key w = environ_get w "GOOGLE_API_KEY".
Proof.
  intros Hkey Hcmd.
  assert (Hfalsy : truthy (environ_get w "GEMINI_API_KEY") = false).
  { unfold environ_get. destruct Hkey as [-> | ->]; reflexivity. }
  split.
  - assert (Hhelp : is_help_flag cmd = false)
      by (destruct Hcmd as [-> | [-> | ->]]; reflexivity).
    rewrite (main_dispatch _ _ _ _ Hhelp). unfold catch_interrupt.
    destruct Hcmd as [-> | [-> | ->]]; cbn [String.eqb Ascii.eqb Bool.eqb];
      rewrite ?chat_run, ?analyze_image_run, ?generate_image_run, Hfalsy;
      reflexivity.
  - unfold client_api_key, py_or. now rewrite Hfalsy.
Qed.

Lemma X7_empty_key_exits_2_witness :
  run (sample_world (<["GOOGLE_API_KEY" := "other"]> (<["GEMINI_API_KEY" := ""]> ∅))
                    PNone)
      ["simple_assistant.py"; "chat"; "hi"]
  = (Exited 2, KEY_ABSENT_TRACE).
Proof.
  refine (proj1 (X7_empty_key_exits_2
            (sample_world (<["GOOGLE_API_KEY" := "other"]>
                             (<["GEMINI_API_KEY" := ""]> ∅)) PNone)
            "simple_assistant.py" "chat" "hi" [] _ _)).
  - right. vm_compute. reflexivity.
  - left. reflexivity.
Defined.

(** ** Failures of the service and of the file system *)

(** X8: an interrupt ([KeyboardInterrupt]) raised while the request of
    [chat] or of [generate-image] is pending makes [main] return 130; the
    handler of [generate_image], which catches [Exception] only, lets it
    through, so no failure message is printed. *)
Theorem X8_interrupt_returns_130
        (w : world) (prog arg : string) (more : list string) (e : exn) :
  truthy (environ_get w "GEMINI_API_KEY") = true ->
  exn_class e = KeyboardInterrupt ->
  (service w (chat_request (String.concat " " (arg :: more))) = Raise e ->
   run w (prog :: "chat" :: arg :: more)
   = (Return 130%Z, [ECall (chat_request (String.concat " " (arg :: more)))]))
  /\ (mkdir_error w "outputs" = None ->
      service w (image_request (String.concat " " (arg :: more))) = Raise e ->
      run w (prog :: "generate-image" :: arg :: more)
      = (Return 130%Z,
         [EMkdir "outputs";
          ECall (image_request (String.concat " " (arg :: more)))])).
Proof.
  intros Hkey Hclass. split.
  - intros Hsvc. rewrite (main_dispatch w prog "chat" (arg :: more) eq_refl).
    unfold catch_interrupt. cbn [String.eqb Ascii.eqb Bool.eqb].
    rewrite chat_run, Hkey, Hsvc. cbv beta iota. now rewrite Hclass.
  - intros Hmkdir Hsvc.
    rewrite (main_dispatch w prog "generate-image" (arg :: more) eq_refl).
    unfold catch_interrupt. cbn [String.eqb Ascii.eqb Bool.eqb].
    rewrite generate_image_run, Hkey, Hmkdir, Hsvc.
    unfold is_Exception. rewrite Hclass. cbv beta iota. now rewrite Hclass.
Qed.

Lemma X8_interrupt_returns_130_witness :
  run (mk_world with_key (fun _ => false) (fun _ => None) (fun _ => None)
         sample_clock (fun _ => Raise (mk_exn KeyboardInterrupt "")))
      ["simple_assistant.py"; "generate-image"; "a"; "kite"]
  = (Return 130%Z, [EMkdir "outputs"; ECall (image_request "a kite")]).
Proof.
  refine (proj2 (X8_interrupt_returns_130
            (mk_world with_key (fun _ => false) (fun _ => None) (fun _ => None)
               sample_clock (fun _ => Raise (mk_exn KeyboardInterrupt "")))
            "simple_assistant.py" "a" ["kite"]
            (mk_exn KeyboardInterrupt "") _ _) _ _).
  - vm_compute. reflexivity.
  - reflexivity.
  - reflexivity.
  - reflexivity.
Defined.

(** X9: when the request of [generate-image] fails with an exception of
    a class deriving from [Exception], the run prints
    [Image generation request failed:] followed by the exception's text and
    returns 1; the directory [outputs] has been created by then, and no file
    is written. *)
Theorem X9_generation_failure_reported
        (w : world) (prog arg : string) (more : list string) (e : exn) :
  truthy (environ_get w "GEMINI_API_KEY") = true ->
  mkdir_error w "outputs" = None ->
  service w (image_request (String.concat " " (arg :: more))) = Raise e ->
  is_Exception e = true ->
  run w (prog :: "generate-image" :: arg :: more)
  = (Return 1%Z,
     [EMkdir "outputs";
      ECall (image_request (String.concat " " (arg :: more)));
      EPrint (PStr ("Image generation request failed: " ++ exn_msg e))]).
Proof.
  intros Hkey Hmkdir Hsvc Hexc.
  rewrite (main_dispatch w prog "generate-image" (arg :: more) eq_refl).
  unfold catch_interrupt. cbn [String.eqb Ascii.eqb Bool.eqb].
  now rewrite generate_image_run, Hkey, Hmkdir, Hsvc, Hexc.
Qed.

Lemma X9_generation_failure_reported_witness :
  run (mk_world with_key (fun _ => false) (fun _ => None) (fun _ => None)
         sample_clock (fun _ => Raise (mk_exn ServiceError "quota exceeded")))
      ["simple_assistant.py"; "generate-image"; "kite"]
  = (Return 1%Z,
     [EMkdir "outputs"; ECall (image_request "kite");
      EPrint (PStr "Image generation request failed: quota exceeded")]).
Proof.
  apply (X9_generation_failure_reported
           (mk_world with_key (fun _ => false) (fun _ => None) (fun _ => None)
              sample_clock (fun _ => Raise (mk_exn ServiceError "quota exceeded")))
           "simple_assistant.py" "kite" [] (mk_exn ServiceError "quota exceeded")).
  - vm_compute. reflexivity.
  - reflexivity.
  - reflexivity.
  - reflexivity.
Defined.

(** X10: [chat] and [analyze-image] do not catch a failure of the
    service: when a request of theirs fails with an exception other than
    [KeyboardInterrupt], the exception leaves [main] (exit status 1), nothing
    is printed, and [analyze-image] does not go on to its second request. *)
Theorem X10_text_commands_do_not_catch
        (w : world) (prog arg : string) (more : list string) (e : exn) :
  truthy (environ_get w "GEMINI_API_KEY") = true ->
  exn_class e <> KeyboardInterrupt ->
  (service w (chat_request (String.concat " " (arg :: more))) = Raise e ->
   run w (prog :: "chat" :: arg :: more)
   = (Raised e, [ECall (chat_request (String.concat " " (arg :: more)))]))
  /\ (path_exists w (path_str arg) = true ->
      service w (Upload (path_str arg)) = Raise e ->
      run w (prog :: "analyze-image" :: arg :: more)
      = (Raised e, [ECall (Upload (path_str arg))])).
Proof.
  intros Hkey Hclass. split.
  - intros Hsvc. rewrite (main_dispatch w prog "chat" (arg :: more) eq_refl).
    unfold catch_interrupt. cbn [String.eqb Ascii.eqb Bool.eqb].
    rewrite chat_run, Hkey, Hsvc. cbv beta iota.
    destruct (exn_class e); congruence.
  - intros Hexists Hsvc.
    rewrite (main_dispatch w prog "analyze-image" (arg :: more) eq_refl).
    unfold catch_interrupt. cbn [String.eqb Ascii.eqb Bool.eqb].
    rewrite analyze_image_run, Hkey, Hexists, Hsvc. cbv beta iota.
    destruct (exn_class e); congruence.
Qed.

Lemma X10_text_commands_do_not_catch_witness :
  run (mk_world with_key (fun _ => true) (fun _ => None) (fun _ => None)
         sample_clock (fun _ => Raise (mk_exn ServiceError "unavailable")))
      ["simple_assistant.py"; "analyze-image"; "cat.jpg"]
  = (Raised (mk_exn ServiceError "unavailable"), [ECall (Upload "cat.jpg")]).
Proof.
  refine (proj2 (X10_text_commands_do_not_catch
            (mk_world with_key (fun _ => true) (fun _ => None) (fun _ => None)
               sample_clock (fun _ => Raise (mk_exn ServiceError "unavailable")))
            "simple_assistant.py" "cat.jpg" []
            (mk_exn ServiceError "unavailable") _ _) _ _).
  - vm_compute. reflexivity.
  - discriminate.
  - reflexivity.
  - reflexivity.
Defined.

(** X11: when the directory [outputs] cannot be created,
    [generate-image] fails with the error of [mkdir] before it contacts the
    service: no request is sent and nothing is printed. *)
Theorem X11_mkdir_failure_sends_nothing
        (w : world) (prog arg : string) (more : list string) (e : exn) :
  truthy (environ_get w "GEMINI_API_KEY") = true ->
  mkdir_error w "outputs" = Some e ->
  exn_class e <> KeyboardInterrupt ->
  run w (prog :: "generate-image" :: arg :: more)
  = (Raised e, [EMkdir "outputs"]).
Proof.
  intros Hkey Hmkdir Hclass.
  rewrite (main_dispatch w prog "generate-image" (arg :: more) eq_refl).
  unfold catch_interrupt. cbn [String.eqb Ascii.eqb Bool.eqb].
  rewrite generate_image_run, Hkey, Hmkdir. cbv beta iota.
  destruct (exn_class e); congruence.
Qed.

Lemma X11_mkdir_failure_sends_nothing_witness :
  run (mk_world with_key (fun _ => false)
         (fun _ => Some (mk_exn OSError "outputs exists and is a file"))
         (fun _ => None) sample_clock (fun _ => Ok PNone))
      ["simple_assistant.py"; "generate-image"; "kite"]
  = (Raised (mk_exn OSError "outputs exists and is a file"), [EMkdir "outputs"]).
Proof.
  apply (X11_mkdir_failure_sends_nothing
           (mk_world with_key (fun _ => false)
              (fun _ => Some (mk_exn OSError "outputs exists and is a file"))
              (fun _ => None) sample_clock (fun _ => Ok PNone))
           "simple_assistant.py" "kite" []
           (mk_exn OSError "outputs exists and is a file")).
  - vm_compute. reflexivity.
  - reflexivity.
  - discriminate.
Defined.

(** ** What the commands send and print *)

(** X12: [chat] and [generate-image] send their arguments joined by
    single spaces, so a run with several arguments is the run with the one
    joined argument; [analyze-image] uses its first argument and ignores the
    rest; and the program name in [argv[0]] has no influence. *)
Theorem X12_arguments
        (w : world) (prog prog' arg : string) (more : list string) :
  run w (prog :: "chat" :: arg :: more)
    = run w [prog'; "chat"; String.concat " " (arg :: more)]
  /\ run w (prog :: "generate-image" :: arg :: more)
     = run w [prog'; "generate-image"; String.concat " " (arg :: more)]
  /\ run w (prog :: "analyze-image" :: arg :: more)
     = run w [prog'; "analyze-image"; arg].
Proof.
  rewrite (main_dispatch w prog "chat" (arg :: more) eq_refl).
  rewrite (main_dispatch w prog' "chat" [_] eq_refl).
  rewrite (main_dispatch w prog "generate-image" (arg :: more) eq_refl).
  rewrite (main_dispatch w prog' "generate-image" [_] eq_refl).
  rewrite (main_dispatch w prog "analyze-image" (arg :: more) eq_refl).
  rewrite (main_dispatch w prog' "analyze-image" [_] eq_refl).
  split; [reflexivity | split; reflexivity].
Qed.

(** X13: a [chat] whose request succeeds prints the [text] attribute
    of the response, whatever its value (a [text] that is None is printed as
    None), prints [(no response)] only when the response has no such
    attribute, and returns 0. *)
Theorem X13_chat_prints_text
        (w : world) (prog arg : string) (more : list string) (resp : pyval) :
  truthy (environ_get w "GEMINI_API_KEY") = true ->
  service w (chat_request (String.concat " " (arg :: more))) = Ok resp ->
  run w (prog :: "chat" :: arg :: more)
  = (Return 0%Z,
     [ECall (chat_request (String.concat " " (arg :: more)));
      EPrint (getattr resp "text" (PStr "(no response)"))])
  /\ (forall attrs v, resp = PObj attrs -> attrs !! "text" = Some v ->
        getattr resp "text" (PStr "(no response)") = v)
  /\ ((forall attrs, resp = PObj attrs -> attrs !! "text" = None) ->
        getattr resp "text" (PStr "(no response)") = PStr "(no response)").
Proof.
  intros Hkey Hsvc. repeat split.
  - rewrite (main_dispatch w prog "chat" (arg :: more) eq_refl).
    unfold catch_interrupt. cbn [String.eqb Ascii.eqb Bool.eqb].
    now rewrite chat_run, Hkey, Hsvc.
  - intros attrs v -> Hv. cbn. now rewrite Hv.
  - intros Hnone. destruct resp; try reflexivity.
    cbn. now rewrite (Hnone attrs eq_refl).
Qed.

Lemma X13_chat_prints_text_witness :
  run (sample_world with_key (PObj (<["text" := PNone]> ∅)))
      ["simple_assistant.py"; "chat"; "hi"; "there"]
  = (Return 0%Z, [ECall (chat_request "hi there"); EPrint PNone]).
Proof.
  refine (proj1 (X13_chat_prints_text
            (sample_world with_key (PObj (<["text" := PNone]> ∅)))
            "simple_assistant.py" "hi" ["there"]
            (PObj (<["text" := PNone]> ∅)) _ _)).
  - vm_compute. reflexivity.
  - reflexivity.
Defined.

(** X14: [analyze-image] on an existing file uploads it first, then asks
    for a description in a request that cites the uploaded file by the [uri]
    and the [mime_type] of the upload's result, prints the answer's text and
    returns 0; when the upload's result lacks one of the two attributes the
    run fails with [AttributeError] after the upload, without the second
    request. *)
Theorem X14_analyze_image_flow
        (w : world) (prog path : string) (more : list string) (uploaded : pyval) :
  truthy (environ_get w "GEMINI_API_KEY") = true ->
  path_exists w (path_str path) = true ->
  service w (Upload (path_str path)) = Ok uploaded ->
  (forall uri mime resp,
      attr uploaded "uri" = Ok uri -> attr uploaded "mime_type" = Ok mime ->
      service w (describe_request uri mime) = Ok resp ->
      run w (prog :: "analyze-image" :: path :: more)
      = (Return 0%Z,
         [ECall (Upload (path_str path)); ECall (describe_request uri mime);
          EPrint (getattr resp "text" (PStr "(no response)"))]))
  /\ (forall e,
        attr uploaded "uri" = Raise e
        \/ (exists uri, attr uploaded "uri" = Ok uri
                        /\ attr uploaded "mime_type" = Raise e) ->
        run w (prog :: "analyze-image" :: path :: more)
        = (Raised e, [ECall (Upload (path_str path))])
        /\ exn_class e = AttributeError).
Proof.
  intros Hkey Hexists Hupload.
  rewrite (main_dispatch w prog "analyze-image" (path :: more) eq_refl).
  unfold catch_interrupt. cbn [String.eqb Ascii.eqb Bool.eqb].
  rewrite analyze_image_run, Hkey, Hexists, Hupload. split.
  - intros uri mime resp Huri Hmime Hsvc. now rewrite Huri, Hmime, Hsvc.
  - intros e Hattr.
    assert (Hclass : exn_class e = AttributeError).
    { destruct Hattr as [H | (uri & _ & H)];
        unfold attr in H; destruct uploaded; try (inversion H; reflexivity);
        destruct (attrs !! _); inversion H; reflexivity. }
    split; [|exact Hclass].
    destruct Hattr as [-> | (uri & -> & ->)];
      cbv beta iota; now rewrite Hclass.
Qed.

Lemma X14_analyze_image_flow_witness :
  run (mk_world with_key (fun _ => true) (fun _ => None) (fun _ => None)
         sample_clock
         (fun c => match c with
                   | Upload _ =>
                       Ok (PObj (<["uri" := PStr "files/1"]>
                                   (<["mime_type" := PStr "image/jpeg"]> ∅)))
                   | GenerateContent _ _ =>
                       Ok (PObj (<["text" := PStr "a cat"]> ∅))
                   end))
      ["simple_assistant.py"; "analyze-image"; "./cat.jpg"]
  = (Return 0%Z,
     [ECall (Upload "cat.jpg");
      ECall (describe_request (PStr "files/1") (PStr "image/jpeg"));
      EPrint (PStr "a cat")]).
Proof.
  refine (proj1 (X14_analyze_image_flow
            (mk_world with_key (fun _ => true) (fun _ => None) (fun _ => None)
               sample_clock
               (fun c => match c with
                         | Upload _ =>
                             Ok (PObj (<["uri" := PStr "files/1"]>
                                         (<["mime_type" := PStr "image/jpeg"]> ∅)))
                         | GenerateContent _ _ =>
                             Ok (PObj (<["text" := PStr "a cat"]> ∅))
                         end))
            "simple_assistant.py" "./cat.jpg" []
            (PObj (<["uri" := PStr "files/1"]>
                     (<["mime_type" := PStr "image/jpeg"]> ∅)))
            _ _ _)
            (PStr "files/1") (PStr "image/jpeg")
            (PObj (<["text" := PStr "a cat"]> ∅)) _ _ _).
  - vm_compute. reflexivity.
  - reflexivity.
  - reflexivity.
  - vm_compute. reflexivity.
  - vm_compute. reflexivity.
  - reflexivity.
Defined.

(** ** More on the extraction *)

Lemma part_payload_shape (p : pyval) (imgs : list pyval) :
  part_payload p = Ok imgs -> imgs = [] \/ exists bs, imgs = [PBytes bs].
Proof.
  unfold part_payload. destruct (is_image_field _).
  - destruct (getattr _ "data" PNone);
      try (intros H; inversion H; eauto; fail).
    destruct (Base64.b64decode s); intros H; inversion H; eauto.
  - intros H; inversion H; eauto.
Qed.

Lemma scan_parts_bytes (parts images : list pyval) :
  Forall (fun v => is_bytes v = true) images ->
  Forall (fun v => is_bytes v = true) (fst (scan_parts parts images))
  /\ (length (fst (scan_parts parts images)) <= length images + length parts)%nat.
Proof.
  revert images. induction parts as [|p rest IH]; intros images Himages.
  - cbn. split; [exact Himages | lia].
  - cbn [scan_parts]. destruct (part_payload p) as [imgs|e] eqn:Hp.
    + destruct (part_payload_shape p imgs Hp) as [-> | [bs ->]].
      * rewrite app_nil_r. destruct (IH images Himages) as [H1 H2].
        split; [exact H1 | cbn; lia].
      * assert (Hext : Forall (fun v => is_bytes v = true) (images ++ [PBytes bs])).
        { apply Forall_app. split; [exact Himages|]. now constructor. }
        destruct (IH _ Hext) as [H1 H2]. split; [exact H1|].
        rewrite length_app in H2. cbn in *. lia.
    + cbn. split; [exact Himages | lia].
Qed.

Lemma traversal_head_bytes (resp : pyval) :
  fst (try_body resp) <> [] ->
  exists bs rest, fst (try_body resp) = PBytes bs :: rest.
Proof.
  intros Hfound.
  assert (Hall : Forall (fun v => is_bytes v = true) (fst (try_body resp))).
  { unfold try_body. destruct (gather resp) as [parts|e]; [|constructor].
    apply (scan_parts_bytes parts [] (List.Forall_nil _)). }
  destruct (fst (try_body resp)) as [|first rest]; [congruence|].
  inversion Hall as [|? ? Hfirst _]; subst.
  destruct first; try discriminate. eauto.
Qed.

(** X15: whatever the response, every payload the traversal of the
    candidates collects is a [bytes] object, and there are no more payloads
    than parts. *)
Theorem X15_traversal_payloads_are_bytes (resp : pyval) :
  Forall (fun v => is_bytes v = true) (fst (try_body resp))
  /\ (forall parts, gather resp = Ok parts ->
        (length (fst (try_body resp)) <= length parts)%nat).
Proof.
  unfold try_body. destruct (gather resp) as [parts|e].
  - destruct (scan_parts_bytes parts [] (List.Forall_nil _)) as [H1 H2].
    split; [exact H1|]. intros parts' H. inversion H; subst. exact H2.
  - split; [constructor | discriminate].
Qed.

Lemma X15_traversal_payloads_are_bytes_witness :
  (length (fst (try_body
     (mk_response
        [mk_candidate
           [mk_part (mk_blob "text/plain" (PStr "hello"));
            mk_part (mk_blob "image/png" (PBytes png_magic))]]))) <= 2)%nat.
Proof.
  apply (proj2 (X15_traversal_payloads_are_bytes
           (mk_response
              [mk_candidate
                 [mk_part (mk_blob "text/plain" (PStr "hello"));
                  mk_part (mk_blob "image/png" (PBytes png_magic))]]))
           [mk_part (mk_blob "text/plain" (PStr "hello"));
            mk_part (mk_blob "image/png" (PBytes png_magic))]).
  vm_compute. reflexivity.
Defined.

(** X16: when the traversal of the candidates finds a payload,
    [generate-image] cannot fail on the type of what it writes: with the key
    set, the directory made and a file system that accepts the write, it
    saves the first payload and returns 0. *)
Theorem X16_traversal_payload_is_saved
        (w : world) (prog arg : string) (more : list string) (resp : pyval) :
  truthy (environ_get w "GEMINI_API_KEY") = true ->
  mkdir_error w "outputs" = None ->
  service w (image_request (String.concat " " (arg :: more))) = Ok resp ->
  fst (try_body resp) <> [] ->
  write_error w ("outputs/gen-" ++ strftime (clock w) ++ ".png") = None ->
  exists bs rest,
    fst (try_body resp) = PBytes bs :: rest
    /\ run w (prog :: "generate-image" :: arg :: more)
       = (Return 0%Z,
          [EMkdir "outputs";
           ECall (image_request (String.concat " " (arg :: more)));
           EWrite ("outputs/gen-" ++ strftime (clock w) ++ ".png") bs;
           EPrint (PStr ("Saved: outputs/gen-" ++ strftime (clock w) ++ ".png"))]).
Proof.
  intros Hkey Hmkdir Hsvc Hfound Hwrite.
  destruct (traversal_head_bytes resp Hfound) as (bs & rest & Himgs).
  exists bs, rest. split; [exact Himgs|].
  rewrite (main_dispatch w prog "generate-image" (arg :: more) eq_refl).
  unfold catch_interrupt. cbn [String.eqb Ascii.eqb Bool.eqb].
  rewrite (generate_image_saves w _ resp (PBytes bs) rest bs
             Hkey Hmkdir Hsvc); auto.
  rewrite extract_images_ok, Himgs. reflexivity.
Qed.

Lemma X16_traversal_payload_is_saved_witness :
  exists bs rest,
    fst (try_body
           (mk_response
              [mk_candidate [mk_part (mk_blob "image/png" (PByteArray png_magic))]]))
    = PBytes bs :: rest
    /\ run (sample_world with_key
              (mk_response
                 [mk_candidate
                    [mk_part (mk_blob "image/png" (PByteArray png_magic))]]))
           ["simple_assistant.py"; "generate-image"; "kite"]
       = (Return 0%Z,
          [EMkdir "outputs"; ECall (image_request "kite");
           EWrite ("outputs/gen-" ++ strftime sample_clock ++ ".png") bs;
           EPrint (PStr ("Saved: outputs/gen-" ++ strftime sample_clock ++ ".png"))]).
Proof.
  apply (X16_traversal_payload_is_saved
           (sample_world with_key
              (mk_response
                 [mk_candidate
                    [mk_part (mk_blob "image/png" (PByteArray png_magic))]]))
           "simple_assistant.py" "kite" []
           (mk_response
              [mk_candidate [mk_part (mk_blob "image/png" (PByteArray png_magic))]])).
  - vm_compute. reflexivity.
  - reflexivity.
  - reflexivity.
  - vm_compute. discriminate.
  - reflexivity.
Defined.

(** X17: the top-level [image] attribute is not checked for its type.
    When the traversal found nothing and the attribute holds a truthy value
    that is neither [bytes] nor [bytearray] (base64 text, for instance),
    [generate-image] fails with [TypeError] at the write, after the request:
    no file is written and no message is printed. *)
Theorem X17_fallback_type_error
        (w : world) (prog arg : string) (more : list string) (resp v : pyval) :
  truthy (environ_get w "GEMINI_API_KEY") = true ->
  mkdir_error w "outputs" = None ->
  service w (image_request (String.concat " " (arg :: more))) = Ok resp ->
  fst (try_body resp) = [] ->
  getattr resp "image" PNone = v -> truthy v = true ->
  (forall bs, v <> PBytes bs) -> (forall bs, v <> PByteArray bs) ->
  exists e,
    exn_class e = TypeError
    /\ run w (prog :: "generate-image" :: arg :: more)
       = (Raised e,
          [EMkdir "outputs";
           ECall (image_request (String.concat " " (arg :: more)))]).
Proof.
  intros Hkey Hmkdir Hsvc Hnone Himage Htruthy Hb Hba.
  exists (mk_exn TypeError "memoryview: a bytes-like object is required").
  split; [reflexivity|].
  rewrite (main_dispatch w prog "generate-image" (arg :: more) eq_refl).
  unfold catch_interrupt. cbn [String.eqb Ascii.eqb Bool.eqb].
  rewrite generate_image_run, Hkey, Hmkdir, Hsvc, Hnone.
  cbn [fallback fst]. rewrite Himage, Htruthy. unfold_steps.
  destruct v; try reflexivity.
  - now elim (Hb bs).
  - now elim (Hba bs).
Qed.

Lemma X17_fallback_type_error_witness :
  exists e,
    exn_class e = TypeError
    /\ run (sample_world with_key (PObj (<["image" := PStr "aGVsbG8="]> ∅)))
           ["simple_assistant.py"; "generate-image"; "kite"]
       = (Raised e, [EMkdir "outputs"; ECall (image_request "kite")]).
Proof.
  apply (X17_fallback_type_error
           (sample_world with_key (PObj (<["image" := PStr "aGVsbG8="]> ∅)))
           "simple_assistant.py" "kite" []
           (PObj (<["image" := PStr "aGVsbG8="]> ∅)) (PStr "aGVsbG8=")).
  - vm_compute. reflexivity.
  - reflexivity.
  - reflexivity.
  - vm_compute. reflexivity.
  - vm_compute. reflexivity.
  - reflexivity.
  - discriminate.
  - discriminate.
Defined.

Lemma gather_mk_response (cands : list pyval) :
  gather (mk_response cands) = collect_parts cands [].
Proof.
  unfold gather, mk_response, getattr. rewrite lookup_insert_eq.
  unfold py_or. destruct cands; reflexivity.
Qed.

Lemma collect_candidate_mk (ps acc : list pyval) :
  collect_candidate (mk_candidate ps) acc = Ok (acc ++ ps).
Proof.
  unfold collect_candidate, mk_candidate, getattr, attr.
  rewrite !lookup_insert_eq. destruct ps as [|p ps].
  - cbn. now rewrite app_nil_r.
  - reflexivity.
Qed.

Lemma collect_parts_mk (pss : list (list pyval)) (acc : list pyval) :
  collect_parts (map mk_candidate pss) acc = Ok (acc ++ concat pss).
Proof.
  revert acc. induction pss as [|ps pss IH]; intros acc; cbn [map collect_parts].
  - cbn. now rewrite app_nil_r.
  - rewrite collect_candidate_mk, IH. cbn. now rewrite app_assoc.
Qed.

Lemma image_part_payload (mime : string) (item : wire * list byte) :
  String.prefix "image/" mime = true ->
  part_payload (image_part mime item) = Ok [PBytes (snd item)].
Proof.
  intros Hmime. destruct item as [k bs].
  unfold part_payload, image_part, mk_part, mk_blob, inline_field,
    is_image_field, py_or, getattr.
  rewrite !lookup_insert_eq. cbn [truthy andb fst snd].
  rewrite !lookup_insert_eq. cbn [str_startswith_image]. rewrite Hmime.
  rewrite lookup_insert_ne by discriminate. rewrite lookup_insert_eq.
  destruct k; cbn [wire_data]; try reflexivity.
  now rewrite Base64Facts.b64decode_b64encode.
Qed.

Lemma scan_image_parts (mime : string) (items : list (wire * list byte))
      (acc : list pyval) :
  String.prefix "image/" mime = true ->
  scan_parts (map (image_part mime) items) acc
  = (acc ++ map (fun item => PBytes (snd item)) items, None).
Proof.
  intros Hmime. revert acc.
  induction items as [|item items IH]; intros acc; cbn [map scan_parts].
  - now rewrite app_nil_r.
  - rewrite (image_part_payload mime item Hmime), IH.
    now rewrite <- app_assoc.
Qed.

(** X18: a response in the documented shape whose parts all carry images
    (of any MIME type that starts with [image/], each as [bytes], as
    [bytearray] or as base64 text) is extracted to exactly the byte strings
    that were put in, one payload per part, in the order of the candidates
    and of the parts within them. *)
Theorem X18_extraction_round_trip
        (mime : string) (itemss : list (list (wire * list byte))) :
  String.prefix "image/" mime = true ->
  extract_images
    (mk_response
       (map (fun items => mk_candidate (map (image_part mime) items)) itemss))
  = Ok (map (fun item => PBytes (snd item)) (concat itemss)).
Proof.
  intros Hmime. rewrite extract_images_ok. unfold try_body.
  rewrite gather_mk_response.
  rewrite <- (map_map (map (image_part mime)) mk_candidate).
  rewrite collect_parts_mk. cbn [app].
  rewrite <- concat_map, (scan_image_parts mime _ [] Hmime). cbn [fst app].
  destruct (map _ (concat itemss)); reflexivity.
Qed.

Lemma X18_extraction_round_trip_witness :
  extract_images
    (mk_response
       (map (fun items => mk_candidate (map (image_part "image/webp") items))
            [[(AsBase64, png_magic)]; []; [(AsBytes, []); (AsByteArray, [x01]%byte)]]))
  = Ok [PBytes png_magic; PBytes []; PBytes [x01]%byte].
Proof.
  apply (X18_extraction_round_trip "image/webp"
           [[(AsBase64, png_magic)]; []; [(AsBytes, []); (AsByteArray, [x01]%byte)]]).
  reflexivity.
Defined.

Lemma scan_parts_skip (pre post : list pyval) (junk : pyval) (acc : list pyval) :
  part_payload junk = Ok [] ->
  scan_parts (pre ++ junk :: post) acc = scan_parts (pre ++ post) acc.
Proof.
  intros Hjunk. revert acc.
  induction pre as [|p pre IH]; intros acc; cbn [app scan_parts].
  - now rewrite Hjunk, app_nil_r.
  - destruct (part_payload p); [apply IH | reflexivity].
Qed.

(** X19: in a response of the documented shape, a part that contributes
    no payload (a text part, a part of another MIME type, a part whose data
    is neither bytes nor text) can stand anywhere among the parts of any
    candidate without changing what is extracted. *)
Theorem X19_silent_parts_do_not_matter
        (before after : list (list pyval)) (pre post : list pyval) (junk : pyval) :
  part_payload junk = Ok [] ->
  extract_images
    (mk_response (map mk_candidate (before ++ (pre ++ junk :: post) :: after)))
  = extract_images
      (mk_response (map mk_candidate (before ++ (pre ++ post) :: after))).
Proof.
  intros Hjunk. rewrite !extract_images_ok. unfold try_body.
  rewrite !gather_mk_response, !collect_parts_mk. cbn [app].
  rewrite !concat_app. cbn [concat].
  replace (concat before ++ (pre ++ junk :: post) ++ concat after)
    with ((concat before ++ pre) ++ junk :: (post ++ concat after))
    by (now rewrite <- !app_assoc).
  replace (concat before ++ (pre ++ post) ++ concat after)
    with ((concat before ++ pre) ++ (post ++ concat after))
    by (now rewrite <- !app_assoc).
  rewrite (scan_parts_skip _ _ junk [] Hjunk).
  destruct (fst (scan_parts _ [])); reflexivity.
Qed.

Lemma X19_silent_parts_do_not_matter_witness :
  extract_images
    (mk_response
       (map mk_candidate
          ([] ++ ([] ++ mk_part (mk_blob "text/plain" (PStr "here it is"))
                     :: [mk_part (mk_blob "image/png" (PBytes png_magic))]) :: [])))
  = extract_images
      (mk_response
         (map mk_candidate
            ([] ++ ([] ++ [mk_part (mk_blob "image/png" (PBytes png_magic))]) :: []))).
Proof.
  apply (X19_silent_parts_do_not_matter [] [] []
           [mk_part (mk_blob "image/png" (PBytes png_magic))]
           (mk_part (mk_blob "text/plain" (PStr "here it is")))).
  vm_compute. reflexivity.
Defined.

Lemma list_ascii_of_string_app (s t : string) :
  list_ascii_of_string (s ++ t)
  = list_ascii_of_string s ++ list_ascii_of_string t.
Proof.
  induction s as [|c s IH]; [reflexivity|].
  rewrite append_cons. cbn [list_ascii_of_string app]. now rewrite IH.
Qed.

Lemma a2b_loop_skip (cs1 cs2 : list ascii) (c : ascii) :
  (forall st, Base64.a2b_step st c = Base64.Continue st) ->
  forall st,
    Base64.a2b_loop (cs1 ++ c :: cs2) st = Base64.a2b_loop (cs1 ++ cs2) st.
Proof.
  intros Hskip. induction cs1 as [|d cs1 IH]; intros st; cbn [app Base64.a2b_loop].
  - now rewrite Hskip.
  - destruct (Base64.a2b_step st d); [apply IH | reflexivity].
Qed.

(** X20: the base64 text of a part is decoded leniently, as
    [base64.b64decode] does without [validate]: an ASCII character outside
    the base64 alphabet other than the pad character (a line break, a space)
    may stand anywhere in the text without changing the payload extracted
    from the part. *)
Theorem X20_base64_text_may_be_wrapped
        (mime : string) (s1 s2 : string) (c : ascii) :
  Base64.a2b c = None -> c <> Base64.pad_char -> (N_of_ascii c < 128)%N ->
  Base64.b64decode (s1 ++ String c s2) = Base64.b64decode (s1 ++ s2)
  /\ part_payload (mk_part (mk_blob mime (PStr (s1 ++ String c s2))))
     = part_payload (mk_part (mk_blob mime (PStr (s1 ++ s2)))).
Proof.
  intros Hforeign Hpad Hascii.
  assert (Hdec : Base64.b64decode (s1 ++ String c s2)
                 = Base64.b64decode (s1 ++ s2)).
  { unfold Base64.b64decode. rewrite !list_ascii_of_string_app.
    cbn [list_ascii_of_string]. rewrite !forallb_app. cbn [forallb].
    rewrite (proj2 (N.ltb_lt _ _) Hascii). cbn [andb].
    unfold Base64.a2b_base64. rewrite a2b_loop_skip; [reflexivity|].
    intros st. unfold Base64.a2b_step.
    rewrite (proj2 (Ascii.eqb_neq _ _) Hpad), Hforeign. reflexivity. }
  split; [exact Hdec|].
  unfold part_payload, mk_part, mk_blob, inline_field, is_image_field,
    py_or, getattr.
  rewrite !lookup_insert_eq. cbn [truthy andb].
  rewrite !lookup_insert_eq.
  rewrite !(lookup_insert_ne _ "mime_type" "data") by discriminate.
  rewrite !lookup_insert_eq. now rewrite Hdec.
Qed.

Lemma X20_base64_text_may_be_wrapped_witness :
  part_payload
    (mk_part (mk_blob "image/png"
                (PStr ("aGVs" ++ String (ascii_of_nat 10) "bG8="))))
  = part_payload (mk_part (mk_blob "image/png" (PStr ("aGVs" ++ "bG8=")))).
Proof.
  refine (proj2 (X20_base64_text_may_be_wrapped "image/png" "aGVs" "bG8="
                   (ascii_of_nat 10) _ _ _)).
  - reflexivity.
  - discriminate.
  - reflexivity.
Defined.
